(** * buildArchitecture.py: a shallow embedding and its verified properties

    The program captures the state of running containers, repackages it
    into derived images and writes a compose descriptor.  This file
    embeds the parts of [src/buildArchitecture.py] that decide the
    behaviour of handler resolution, backup preparation, file
    extraction, Dockerfile rendering and compose generation.

    Conventions of the embedding.
    - A Python [str] is a [string]: a sequence of characters with code
      points below 256.  On that range [\d] is exactly [0-9], [.] is
      every character but line feed, and [lower], [strip] and
      [splitlines] are Python's.
    - Command output is taken after [decode("utf-8")].
    - An exception is a value of [exn]; a computation that may raise
      returns a [result].
    - The container engine is a deterministic oracle: what [exec_run]
      and [get_archive] answer depends on the commands run so far.
    - The local file system is a finite map from paths to file data;
      opening a file for writing always succeeds: the directory of the
      file exists and the path does not name a directory, which
      excludes an in-container path that ends in a slash.  Everything
      printed or written is also recorded, in order, as a list of
      events. *)

From Stdlib Require Import String Ascii ZArith List Lia Floats.
From stdpp Require Import gmap strings list.

Local Open Scope Z_scope.
Set Warnings "-register-all,-clear-no-such-hyp".

(** ** Python's string built-ins *)

Module Py.

Definition LF : ascii := "010"%char.
Definition CR : ascii := "013"%char.

(** A one-character string, and the double quote (code 34). *)
Definition str1 (c : ascii) : string := String c "".
Definition dq : string := str1 "034"%char.
Definition nl : string := str1 LF.

Definition code (c : ascii) : N := N_of_ascii c.

Definition in_range (lo hi : N) (c : ascii) : bool :=
  ((lo <=? code c) && (code c <=? hi))%N.

(** [\d] *)
Definition is_digit (c : ascii) : bool := in_range 48 57 c.

(** [s.startswith(p)] *)
Definition startswith (s p : string) : bool := String.prefix p s.

(** [needle in hay] *)
Fixpoint contains (needle hay : string) : bool :=
  String.prefix needle hay ||
  match hay with
  | EmptyString => false
  | String _ hay' => contains needle hay'
  end.

(** [s.split(sep)] for a one-character separator: never empty. *)
Fixpoint split (sep : ascii) (s : string) : list string :=
  match s with
  | EmptyString => [""]
  | String c s' =>
      if Ascii.eqb c sep then "" :: split sep s'
      else match split sep s' with
           | h :: t => String c h :: t
           | [] => [str1 c]
           end
  end.

(** [s.split(sep, 1)] *)
Fixpoint split_once (sep : ascii) (s : string) : list string :=
  match s with
  | EmptyString => [""]
  | String c s' =>
      if Ascii.eqb c sep then [""; s']
      else match split_once sep s' with
           | h :: t => String c h :: t
           | [] => [str1 c]
           end
  end.

(** [s.rfind(c)]: the index of the last occurrence, or -1. *)
Fixpoint rfind_from (c : ascii) (s : string) (i last : Z) : Z :=
  match s with
  | EmptyString => last
  | String x s' => rfind_from c s' (i + 1) (if Ascii.eqb x c then i else last)
  end.

Definition rfind (c : ascii) (s : string) : Z := rfind_from c s 0 (-1).

(** [s[n:]] for [n >= 0]. *)
Fixpoint drop (n : nat) (s : string) : string :=
  match n, s with
  | O, _ => s
  | S n', String _ s' => drop n' s'
  | S _, EmptyString => ""
  end.

Definition slice_from (n : Z) (s : string) : string := drop (Z.to_nat n) s.

(** [s.lower()] on code points below 256: A-Z and the Latin-1 capitals
    (192-222 but the multiplication sign 215) move up by 32. *)
Definition lower_char (c : ascii) : ascii :=
  if in_range 65 90 c || (in_range 192 222 c && negb (code c =? 215)%N)
  then ascii_of_N (code c + 32)
  else c.

Fixpoint lower (s : string) : string :=
  match s with
  | EmptyString => ""
  | String c s' => String (lower_char c) (lower s')
  end.

(** Python's whitespace below 256: tab to carriage return, the four
    separators 28-31, space, NEL (133) and the no-break space (160). *)
Definition is_space (c : ascii) : bool :=
  in_range 9 13 c || in_range 28 32 c || (code c =? 133)%N || (code c =? 160)%N.

Fixpoint lstrip (s : string) : string :=
  match s with
  | EmptyString => ""
  | String c s' => if is_space c then lstrip s' else s
  end.

Fixpoint rstrip (s : string) : string :=
  match s with
  | EmptyString => ""
  | String c s' =>
      match rstrip s' with
      | EmptyString => if is_space c then "" else str1 c
      | r => String c r
      end
  end.

Definition strip (s : string) : string := rstrip (lstrip s).

(** The line boundaries of [splitlines] below 256. *)
Definition is_linebreak (c : ascii) : bool :=
  in_range 10 13 c || in_range 28 30 c || (code c =? 133)%N.

(** [s.splitlines()]: a carriage return directly followed by a line feed
    is one boundary, and a final boundary opens no empty line. *)
Fixpoint splitlines (s : string) : list string :=
  match s with
  | EmptyString => []
  | String c s' =>
      let r := splitlines s' in
      if is_linebreak c then
        if Ascii.eqb c CR && String.prefix nl s' then r else "" :: r
      else match r with
           | [] => [str1 c]
           | h :: t => String c h :: t
           end
  end.

(** [sep.join(l)] *)
Fixpoint join (sep : string) (l : list string) : string :=
  match l with
  | [] => ""
  | [x] => x
  | x :: l' => x +:+ sep +:+ join sep l'
  end.

(** [zip(a, b)] stops at the shorter list. *)
Fixpoint zip {A B : Type} (a : list A) (b : list B) : list (A * B) :=
  match a, b with
  | x :: a', y :: b' => (x, y) :: zip a' b'
  | _, _ => []
  end.

(** [os.path.join(a, b)] of posixpath, for two components. *)
Definition ends_with_slash (s : string) : bool :=
  match String.rev s with
  | String c _ => Ascii.eqb c "/"
  | EmptyString => false
  end.

Definition os_path_join (a b : string) : string :=
  if String.prefix "/" b then b
  else if (String.eqb a "" || ends_with_slash a)%bool then a +:+ b
  else a +:+ "/" +:+ b.

(** [os.path.basename(p)] of posixpath: what follows the last slash. *)
Definition os_path_basename (p : string) : string :=
  slice_from (rfind "/" p + 1) p.

End Py.

(** ** Exceptions and results *)

Inductive exn : Type :=
| TypeError
| AttributeError
| IndexError
| EOFError
| OverflowError
| ReadError
| NotFound (msg : string)
| APIError (msg : string)
| NoContainersFound (msg : string)
| HandlerNotFoundError (image_name : string).

(** [HandlerNotFoundError.message] *)
Definition message (e : exn) : string :=
  match e with
  | HandlerNotFoundError image_name => "No handler found for image: " +:+ image_name
  | NotFound msg | APIError msg | NoContainersFound msg => msg
  | TypeError => "'NoneType' object is not iterable"
  | AttributeError => "'NoneType' object has no attribute 'group'"
  | IndexError => "list index out of range"
  | EOFError => "EOF when reading a line"
  | OverflowError => "int too large to convert to float"
  | ReadError => "file could not be opened successfully"
  end.

Inductive result (A : Type) : Type :=
| Ok (a : A)
| Raise (e : exn).

Arguments Ok {A} a.
Arguments Raise {A} e.

#[global] Instance result_ret : MRet result := fun A a => Ok a.
#[global] Instance result_bind : MBind result := fun A B f r =>
  match r with
  | Ok a => f a
  | Raise e => Raise e
  end.

(** [l[i]] *)
Definition py_index {A : Type} (l : list A) (i : nat) : result A :=
  match l !! i with
  | Some a => Ok a
  | None => Raise IndexError
  end.

(** ** Python values that reach the compose descriptor *)

(** [PFloatStr x] is the string [str(x)] of a float [x]. *)
Inductive pyval : Type :=
| PNone
| PStr (s : string)
| PFloatStr (x : float)
| PList (l : list pyval)
| PDict (d : list (string * pyval)).

(** A [dict] with string keys keeps insertion order; assigning to a key
    that is present replaces the value where it stands. *)
Section Dict.
Context {V : Type}.

Fixpoint dict_get (k : string) (d : list (string * V)) : option V :=
  match d with
  | [] => None
  | (k', v) :: d' => if String.eqb k k' then Some v else dict_get k d'
  end.

Fixpoint dict_set (k : string) (v : V) (d : list (string * V)) : list (string * V) :=
  match d with
  | [] => [(k, v)]
  | (k', v') :: d' =>
      if String.eqb k k' then (k, v) :: d' else (k', v') :: dict_set k v d'
  end.

Definition dict_keys (d : list (string * V)) : list string := d.*1.

Definition dict_has (k : string) (d : list (string * V)) : bool :=
  match dict_get k d with Some _ => true | None => false end.
End Dict.

(** [str(x)] for a float that is a whole number below 1e16 in magnitude:
    the digits of the number followed by [.0].  Other floats are outside
    this rendering. *)
Definition Z_to_float (z : Z) : float := SF2Prim (binary_normalize prec emax z 0 false).

Definition float_to_Z (x : float) : option Z :=
  match Prim2SF x with
  | S754_zero _ => Some 0
  | S754_finite s m e =>
      let v := if s then Z.neg m else Z.pos m in
      if (0 <=? e) then Some (v * 2 ^ e)
      else if (v mod 2 ^ (- e) =? 0) then Some (v / 2 ^ (- e)) else None
  | _ => None
  end.

Fixpoint digits_of (fuel : nat) (n : Z) (acc : string) : string :=
  match fuel with
  | O => acc
  | S fuel' =>
      let acc' := String (ascii_of_N (Z.to_N (48 + n mod 10))) acc in
      if n <? 10 then acc' else digits_of fuel' (n / 10) acc'
  end.

Definition float_str (x : float) : option string :=
  match float_to_Z x with
  | Some n =>
      if Z.abs n <? 10 ^ 16 then
        let sign := match Prim2SF x with
                    | S754_zero true | S754_finite true _ _ => "-"
                    | _ => ""
                    end in
        Some (sign +:+ digits_of 17 (Z.abs n) "" +:+ ".0")
      else None
  | None => None
  end.

(** ** The container engine *)

Module Docker.

Record PortBinding : Type := { HostIp : string; HostPort : string }.

(** A member of a tar archive: a regular file with its bytes, or
    something [extractfile] has no file object for (a directory).
    Links, which [extractfile] follows inside the archive, are not
    part of the embedding. *)
Inductive MemberBody : Type :=
| RegularFile (content : string)
| Directory.

Record TarMember : Type := { member_name : string; member_body : MemberBody }.

Inductive ArchiveResult : Type :=
| Archive (members : list TarMember)
| ArchiveNotFound (msg : string)
| ArchiveAPIError (msg : string).

(** The commands run so far, latest first, each with the name of the
    container it ran in. *)
Definition History : Type := list (string * string).

Record Container : Type := {
  name : string;                               (* container.name *)
  image_tags : list string;                    (* container.image.tags *)
  Env : list string;                           (* attrs["Config"]["Env"] *)
  NanoCpus : option Z;                         (* attrs["HostConfig"]["NanoCpus"] *)
  ports : list (string * option (list PortBinding));   (* container.ports *)
  exec_output : History -> string -> string;   (* exec_run(cmd).output, decoded *)
  get_archive : History -> string -> ArchiveResult
}.

End Docker.

Import Docker.

(** ** The world: local files, the terminal, the engine's history *)

Inductive FileData : Type :=
| Raw (bytes : string)
| Tar (members : list TarMember)
| Yaml (doc : pyval).

Inductive Event : Type :=
| Print (line : string)
| Prompt (text : string)
| Write (path : string) (data : FileData).

Record World : Type := {
  fs : gmap string FileData;
  events : list Event;
  stdin : list string;
  history : History
}.

Definition M (A : Type) : Type := World -> result A * World.

#[global] Instance M_ret : MRet M := fun A a w => (Ok a, w).
#[global] Instance M_bind : MBind M := fun A B f m w =>
  match m w with
  | (Ok a, w') => f a w'
  | (Raise e, w') => (Raise e, w')
  end.

Definition raise {A : Type} (e : exn) : M A := fun w => (Raise e, w).

Definition lift {A : Type} (r : result A) : M A := fun w => (r, w).

Definition emit (e : Event) : M unit := fun w =>
  (Ok tt, {| fs := fs w; events := events w ++ [e]; stdin := stdin w; history := history w |}).

Definition print (line : string) : M unit := emit (Print line).

(** [open(path, "wb")] or ["w"], then writing [data] and closing. *)
Definition write_file (path : string) (data : FileData) : M unit := fun w =>
  (Ok tt, {| fs := <[path := data]> (fs w); events := events w ++ [Write path data];
             stdin := stdin w; history := history w |}).

(** [os.path.exists(path)] *)
Definition path_exists (path : string) : M bool := fun w =>
  (Ok (bool_decide (is_Some (fs w !! path))), w).

Definition read_file (path : string) : M (option FileData) := fun w =>
  (Ok (fs w !! path), w).

(** [input(prompt)] *)
Definition input (prompt : string) : M string := fun w =>
  let w' := {| fs := fs w; events := events w ++ [Prompt prompt];
               stdin := stdin w; history := history w |} in
  match stdin w with
  | [] => (Raise EOFError, w')
  | line :: rest =>
      (Ok line, {| fs := fs w'; events := events w'; stdin := rest; history := history w' |})
  end.

(** [container.exec_run(command)] and its decoded output. *)
Definition exec_run (c : Container) (command : string) : M string := fun w =>
  (Ok (exec_output c (history w) command),
   {| fs := fs w; events := events w; stdin := stdin w;
      history := (name c, command) :: history w |}).

(** [for x in l: body x] *)
Fixpoint for_each {A : Type} (l : list A) (body : A -> M unit) : M unit :=
  match l with
  | [] => mret tt
  | x :: l' => body x ≫= fun _ => for_each l' body
  end.

(** ** Handlers *)

(** The three handler classes. *)
Inductive HandlerClass : Type :=
| IgnitionHandler
| ModbusHandler
| MSSQLHandler.

Record Handler : Type := {
  class : HandlerClass;
  container : Container;
  container_name : string;
  image_name : string;
  image_tag : string;
  dockerfile_content : string;
  environment_variables : list string;
  deploy : pyval
}.

Definition set_environment_variables (env : list string) (h : Handler) : Handler :=
  {| class := class h; container := container h; container_name := container_name h;
     image_name := image_name h; image_tag := image_tag h;
     dockerfile_content := dockerfile_content h;
     environment_variables := env; deploy := deploy h |}.

Definition set_deploy (d : pyval) (h : Handler) : Handler :=
  {| class := class h; container := container h; container_name := container_name h;
     image_name := image_name h; image_tag := image_tag h;
     dockerfile_content := dockerfile_content h;
     environment_variables := environment_variables h; deploy := d |}.

Definition set_dockerfile_content (text : string) (h : Handler) : Handler :=
  {| class := class h; container := container h; container_name := container_name h;
     image_name := image_name h; image_tag := image_tag h;
     dockerfile_content := text;
     environment_variables := environment_variables h; deploy := deploy h |}.

(** *** The container-name pattern [^[^-]+-([^-]+)-\d+$]

    [[^-]+] can only stop in front of a hyphen or at the end, so it takes
    the longest hyphen-free run; [\d+] likewise takes every digit, and
    [$] accepts the end of the string or one last line feed. *)

Fixpoint span_not_hyphen (s : string) : string * string :=
  match s with
  | EmptyString => ("", "")
  | String c s' =>
      if Ascii.eqb c "-" then ("", s)
      else let '(a, r) := span_not_hyphen s' in (String c a, r)
  end.

Fixpoint span_digits (s : string) : string * string :=
  match s with
  | EmptyString => ("", "")
  | String c s' =>
      if Py.is_digit c then let '(a, r) := span_digits s' in (String c a, r)
      else ("", s)
  end.

Definition digits_then_end (s : string) : bool :=
  let '(d, r) := span_digits s in
  negb (String.eqb d "") && (String.eqb r "" || String.eqb r Py.nl).

(** [re.search(r"^[^-]+-([^-]+)-\d+$", s)]: group 1 of the match. *)
Definition search_container_name (s : string) : option string :=
  let '(a, r1) := span_not_hyphen s in
  match a, r1 with
  | String _ _, String _ r1' =>
      let '(b, r2) := span_not_hyphen r1' in
      match b, r2 with
      | String _ _, String _ r2' => if digits_then_end r2' then Some b else None
      | _, _ => None
      end
  | _, _ => None
  end.

(** [ContainerHandler.__init__] *)
Definition ContainerHandler_init (cls : HandlerClass) (c : Container) : result Handler :=
  match search_container_name (name c) with
  | None => Raise AttributeError
  | Some short =>
      tag0 ← py_index (image_tags c) 0;
      image_name ← py_index (Py.split ":" tag0) 0;
      tag0' ← py_index (image_tags c) 0;
      image_tag ← py_index (Py.split ":" tag0') 1;
      mret {| class := cls; container := c; container_name := Py.lower short;
              image_name := image_name; image_tag := image_tag;
              dockerfile_content := ""; environment_variables := [];
              deploy := PNone |}
  end.

(** [IgnitionHandler.__init__] *)
Definition IgnitionHandler_init (c : Container) : result Handler :=
  h ← ContainerHandler_init IgnitionHandler c;
  mret (set_environment_variables ["ACCEPT_IGNITION_EULA=Y"] h).

(** [ModbusHandler.nano_cpus_to_cpus]: [nano_cpus / 1e9] on an [int]; the
    integer is first rounded to the nearest float, and one too large for
    a float raises. *)
Definition nano_cpus_to_cpus (nano_cpus : Z) : result float :=
  let x := Z_to_float nano_cpus in
  if PrimFloat.is_infinity x then Raise OverflowError
  else Ok (PrimFloat.div x 1e9%float).

(** [ModbusHandler.get_deploy] *)
Definition get_deploy (c : Container) : result pyval :=
  let nano_cpus := default 0 (NanoCpus c) in
  cpus ← nano_cpus_to_cpus nano_cpus;
  mret (PDict [("resources", PDict [("limits", PDict [("cpus", PFloatStr cpus)])])]).

(** [ModbusHandler.__init__] *)
Definition ModbusHandler_init (c : Container) : result Handler :=
  h ← ContainerHandler_init ModbusHandler c;
  d ← get_deploy (container h);
  mret (set_deploy d h).

(** [MSSQLHandler.get_sa_password]: the loop over [env_list], appending
    to [self.environment_variables]. *)
Fixpoint get_sa_password_loop (env_list : list string) (acc : list string)
  : result (list string) :=
  match env_list with
  | [] => Ok acc
  | item :: rest =>
      if Py.startswith item "SA_PASSWORD=" then
        password ← py_index (Py.split_once "=" item) 1;
        get_sa_password_loop rest (acc ++ ["SA_PASSWORD=" +:+ password])
      else get_sa_password_loop rest acc
  end.

Definition get_sa_password (h : Handler) : result Handler :=
  env ← get_sa_password_loop (Env (container h)) (environment_variables h);
  mret (set_environment_variables env h).

(** [MSSQLHandler.__init__] *)
Definition MSSQLHandler_init (c : Container) : result Handler :=
  h ← ContainerHandler_init MSSQLHandler c;
  get_sa_password (set_environment_variables ["ACCEPT_EULA=Y"] h).

(** ** The handler registry *)

Module HandlerFactory.

Definition handlers : gmap string HandlerClass :=
  <["inductiveautomation/ignition" := IgnitionHandler]>
  (<["kcollins/mssql" := MSSQLHandler]>
  (<["qpadgham/mymodbus" := ModbusHandler]> ∅)).

(** Calling a registered class on a container. *)
Definition construct (cls : HandlerClass) (c : Container) : result Handler :=
  match cls with
  | IgnitionHandler => IgnitionHandler_init c
  | ModbusHandler => ModbusHandler_init c
  | MSSQLHandler => MSSQLHandler_init c
  end.

(** [HandlerFactory.get_handler] *)
Definition get_handler (c : Container) : result Handler :=
  tag0 ← py_index (image_tags c) 0;
  image_name ← py_index (Py.split ":" tag0) 0;
  match handlers !! image_name with
  | Some cls => construct cls c
  | None => Raise (HandlerNotFoundError image_name)
  end.

End HandlerFactory.

(** ** Preparing the files of a container *)

(** What [prepare_files] returns is a list of paths or, after a bare
    [return], Python's [None]: [Some l] stands for the list [l] and
    [None] for [None]. *)

(** The [command] of [IgnitionHandler.prepare_files]. *)
Definition gateway_backup_command : string :=
  "sh -c " +:+ Py.dq +:+
  "/usr/local/bin/ignition/gwcmd.sh -y -b /usr/local/bin/ignition/data/backup.gwbk"
  +:+ Py.dq.

(** [IgnitionHandler.prepare_files] *)
Definition Ignition_prepare_files (h : Handler) : M (option (list string)) :=
  let command := gateway_backup_command in
  output ← exec_run (container h) command;
  if negb (Py.contains "backup saved" output) then
    print output;;
    print ("Backup not created successfully for " +:+ container_name h);;
    mret None
  else
    print ("Backup created successfully for " +:+ container_name h);;
    mret (Some [ "/usr/local/bin/ignition/data/redundancy.xml";
                 "/usr/local/bin/ignition/data/.uuid";
                 "/usr/local/bin/ignition/data/local/metro-keystore";
                 "/usr/local/bin/ignition/data/backup.gwbk" ]).

(** [ModbusHandler.prepare_files] *)
Definition Modbus_prepare_files (h : Handler) : M (option (list string)) :=
  mret (Some ["/setup.json"]).

(** [MSSQLHandler.get_db_names] *)
Definition get_db_names (h : Handler) : M (list string) :=
  input_string ← input ("Please enter a comma-separated list of database names for container "
                        +:+ container_name h +:+ ": ");
  mret (Py.strip <$> Py.split "," input_string).

(** *** The backup-file patterns

    [stamp_bak] reads [_(\d{8}_\d{6})\.bak] at the start of a string and
    returns group 2 with what follows the match. *)

Fixpoint take_digits (n : nat) (s : string) : option (string * string) :=
  match n with
  | O => Some ("", s)
  | S n' =>
      match s with
      | String c s' =>
          if Py.is_digit c then
            '(d, r) ← take_digits n' s'; Some (String c d, r)
          else None
      | EmptyString => None
      end
  end.

Definition expect (lit s : string) : option string :=
  if String.prefix lit s then Some (Py.drop (String.length lit) s) else None.

Definition stamp_bak (s : string) : option (string * string) :=
  r0 ← expect "_" s;
  '(d8, r1) ← take_digits 8 r0;
  r2 ← expect "_" r1;
  '(d6, r3) ← take_digits 6 r2;
  r4 ← expect ".bak" r3;
  Some (d8 +:+ "_" +:+ d6, r4).

(** The [re.match] of [get_latest_bak_files]: group 1 is a greedy run of
    any characters, then come an underscore, group 2 (eight digits, an
    underscore, six digits) and [.bak]; the result is groups 1 and 2.  The
    greedy run takes as many characters of the first line as leave a
    stamp behind it, so the longest prefix is tried first; nothing is
    required after [.bak]. *)
Fixpoint match_bak (s : string) : option (string * string) :=
  let here := '(date_str, _) ← stamp_bak s; Some ("", date_str) in
  match s with
  | EmptyString => here
  | String c s' =>
      if Ascii.eqb c Py.LF then here
      else match match_bak s' with
           | Some (some_string, date_str) => Some (String c some_string, date_str)
           | None => here
           end
  end.

(** The [re.match] of [create_dockerfile]: the same pattern between [^]
    and [$], with a lazy group 1 and no group 2; the result is group 1.
    The lazy run tries the shortest prefix first, and [$] wants the end of the string
    or one last line feed after [.bak]. *)
Fixpoint match_bak_anchored (s : string) : option string :=
  let further :=
    match s with
    | EmptyString => None
    | String c s' =>
        if Ascii.eqb c Py.LF then None else String c <$> match_bak_anchored s'
    end in
  match stamp_bak s with
  | Some (_, r) => if String.eqb r "" || String.eqb r Py.nl then Some "" else further
  | None => further
  end.

(** The body of the loop of [get_latest_bak_files]. *)
Definition update_latest (file_dict : list (string * string)) (file : string)
  : list (string * string) :=
  match match_bak file with
  | Some (some_string, date_str) =>
      match dict_get some_string file_dict with
      | None => dict_set some_string date_str file_dict
      | Some latest =>
          if String.ltb latest date_str then dict_set some_string date_str file_dict
          else file_dict
      end
  | None => file_dict
  end.

Definition bak_filename (entry : string * string) : string :=
  entry.1 +:+ "_" +:+ entry.2 +:+ ".bak".

(** [MSSQLHandler.get_latest_bak_files] *)
Definition get_latest_bak_files (files : list string) : list string :=
  let file_dict := foldl update_latest [] files in
  bak_filename <$> file_dict.

(** The [for db_name in db_names] loop of [MSSQLHandler.prepare_files];
    [false] is the early [return]. *)
Fixpoint backup_databases (h : Handler) (db_names : list string) : M bool :=
  match db_names with
  | [] => mret true
  | db_name :: rest =>
      let command := "sh -c " +:+ Py.dq +:+ "./backup.sh " +:+ db_name +:+ Py.dq in
      output ← exec_run (container h) command;
      if negb (Py.contains "BACKUP DATABASE" output) then
        print output;;
        print ("Backup not created successfully for " +:+ container_name h
               +:+ "'s database " +:+ db_name);;
        mret false
      else
        print ("Backup created successfully for " +:+ container_name h
               +:+ "'s database " +:+ db_name);;
        backup_databases h rest
  end.

(** [MSSQLHandler.prepare_files] *)
Definition MSSQL_prepare_files (h : Handler) : M (option (list string)) :=
  db_names ← get_db_names h;
  all_saved ← backup_databases h db_names;
  if all_saved : bool then
    let find_backups_cmd := "sh -c " +:+ Py.dq +:+ "find /backups -type f" +:+ Py.dq in
    output ← exec_run (container h) find_backups_cmd;
    let all_baks := Py.splitlines output in
    mret (Some (get_latest_bak_files all_baks))
  else mret None.

(** [handler.prepare_files()], dispatched on the class of the handler. *)
Definition prepare_files (h : Handler) : M (option (list string)) :=
  match class h with
  | IgnitionHandler => Ignition_prepare_files h
  | ModbusHandler => Modbus_prepare_files h
  | MSSQLHandler => MSSQL_prepare_files h
  end.

(** ** Copying files out of a container *)

Module DockerUtils.

(** [archive.getmember(name)], which [extractfile] uses for a name: the
    last member of that name. *)
Fixpoint getmember (n : string) (members : list TarMember) : option TarMember :=
  match members with
  | [] => None
  | m :: rest =>
      match getmember n rest with
      | Some m' => Some m'
      | None => if String.eqb (member_name m) n then Some m else None
      end
  end.

(** [DockerUtils.extract_inner_file] *)
Definition extract_inner_file (filepath extract_to : string) : M unit :=
  present ← path_exists filepath;
  if negb present then print ("File " +:+ filepath +:+ " does not exist.")
  else
    data ← read_file filepath;
    match data with
    | Some (Tar members) =>
        let inner_archive_filename :=
          match members with
          | member :: _ => member_name member
          | [] => ""
          end in
        if negb (String.eqb inner_archive_filename "") then
          match member_body <$> getmember inner_archive_filename members with
          | Some (RegularFile inner_archive_content) =>
              let inner_archive_filepath :=
                Py.os_path_join extract_to inner_archive_filename in
              write_file inner_archive_filepath (Raw inner_archive_content)
          | _ => raise AttributeError
          end
        else print "Inner archive file not found within the outer archive."
    | _ => raise ReadError
    end.

(** [handler.container.get_archive(file)], raising the engine's errors. *)
Definition container_get_archive (c : Container) (file : string) : M (list TarMember) :=
  fun w =>
    match get_archive c (history w) file with
    | Archive members => (Ok members, w)
    | ArchiveNotFound msg => (Raise (NotFound msg), w)
    | ArchiveAPIError msg => (Raise (APIError msg), w)
    end.

(** [try: body / except NotFound: ... / except APIError as e: ...] *)
Definition try_docker (body : M unit) (on_not_found : M unit)
    (on_api_error : string -> M unit) : M unit :=
  fun w =>
    match body w with
    | (Raise (NotFound _), w') => on_not_found w'
    | (Raise (APIError msg), w') => on_api_error msg w'
    | other => other
    end.

(** The body of the loop of [extract_files_from_container]. *)
Definition extract_one (handler : Handler) (destination file : string) : M unit :=
  let container_name := container_name handler in
  try_docker
    (data ← container_get_archive (container handler) file;
     let last_slash_index := Py.rfind "/" file in
     let file_name := Py.lower (Py.slice_from (last_slash_index + 1) file) in
     let file_path := Py.os_path_join destination file_name in
     write_file file_path (Tar data);;
     extract_inner_file file_path destination;;
     print ("Successfully copied " +:+ file_name +:+ " from " +:+ container_name
            +:+ " to " +:+ destination))
    (print ("File " +:+ file +:+ " not found in container " +:+ container_name))
    (fun e => print ("Error copying file: " +:+ e)).

(** [DockerUtils.extract_files_from_container]; iterating over [None]
    raises [TypeError]. *)
Definition extract_files_from_container (handler : Handler)
    (files_to_copy : option (list string)) (destination : string) : M unit :=
  match files_to_copy with
  | None => raise TypeError
  | Some files => for_each files (extract_one handler destination)
  end.

(** The ports of a service: the loop over [handler.container.ports]. *)
Definition port_mapping (ports : list (string * option (list PortBinding)))
  : list string :=
  flat_map
    (fun port =>
       match dict_get port ports with
       | Some (Some (binding :: _)) => [HostPort binding +:+ ":" +:+ port]
       | _ => []
       end)
    (dict_keys ports).

(** The entry assigned to [docker_compose["services"][service_name]]. *)
Definition service_entry (image_name : string) (handler : Handler)
  : list (string * pyval) :=
  let service_name := container_name handler in
  let service_image_name := "qpadgham/" +:+ image_name +:+ ":" +:+ service_name in
  [ ("container_name", PStr service_name);
    ("image", PStr service_image_name);
    ("ports", PList (PStr <$> port_mapping (ports (container handler))));
    ("environment", PList (PStr <$> environment_variables handler));
    ("deploy", deploy handler) ].

(** [docker_compose["services"]] after the loop over the handlers. *)
Definition compose_services (image_name : string) (handlers : list Handler)
  : list (string * list (string * pyval)) :=
  foldl (fun services handler =>
           dict_set (container_name handler) (service_entry image_name handler) services)
        [] handlers.

Definition docker_compose (image_name : string) (handlers : list Handler) : pyval :=
  PDict [("services", PDict (prod_map id PDict <$> compose_services image_name handlers))].

(** [DockerUtils.create_compose_file]; the file holds the document that
    [yaml.dump] serializes, and the last line prints the closed file
    object, which shows the [encoding] that [open] chose for it (the
    one of the locale) and the path, here one without quotes or
    backslashes. *)
Definition create_compose_file (encoding : string) (image_name : string)
    (handlers : list Handler) (destination_folder : string) : M unit :=
  let compmose_filepath := Py.os_path_join destination_folder "docker-compose.yml" in
  write_file compmose_filepath (Yaml (docker_compose image_name handlers));;
  print ("Generated docker-compose.yml at: <_io.TextIOWrapper name='"
         +:+ compmose_filepath +:+ "' mode='w' encoding='" +:+ encoding +:+ "'>").

End DockerUtils.

(** [ContainerHandler.extract_resources] *)
Definition extract_resources (h : Handler) (folder : string) : M unit :=
  files_to_copy ← prepare_files h;
  DockerUtils.extract_files_from_container h files_to_copy folder.

(** ** Rendering Dockerfiles *)

(** [ContainerHandler.save_dockerfile] *)
Definition save_dockerfile (h : Handler) (folder : string) : M unit :=
  let dockerfile_path := Py.os_path_join folder "dockerfile" in
  write_file dockerfile_path (Raw (dockerfile_content h));;
  print ("Generated Dockerfile at: " +:+ dockerfile_path).

Definition lines (l : list string) : string := Py.join Py.nl l.

(** [IgnitionHandler.create_dockerfile] *)
Definition Ignition_create_dockerfile (h : Handler) (folder : string) : M Handler :=
  let text := lines [
    "FROM inductiveautomation/ignition:" +:+ image_tag h;
    "";
    "COPY /.uuid /usr/local/bin/ignition/data/";
    "COPY /metro-keystore /usr/local/bin/ignition/data/local/metro-keystore";
    "COPY /redundancy.xml /usr/local/bin/ignition/data/redundancy.xml";
    "COPY /backup.gwbk /restore.gwbk";
    "";
    "USER root";
    "RUN chown -R ignition /usr/local/bin/ignition/data/";
    "RUN chgrp -R ignition /usr/local/bin/ignition/data/";
    "";
    "RUN chown -R ignition /restore.gwbk";
    "RUN chgrp -R ignition /restore.gwbk";
    "USER ignition";
    "";
    "ENTRYPOINT [" +:+ Py.dq +:+ "docker-entrypoint.sh" +:+ Py.dq +:+ ", "
      +:+ Py.dq +:+ "-r" +:+ Py.dq +:+ ", " +:+ Py.dq +:+ "/restore.gwbk" +:+ Py.dq +:+ "]";
    "    " ] in
  let h' := set_dockerfile_content text h in
  save_dockerfile h' folder;; mret h'.

(** [ModbusHandler.create_dockerfile] *)
Definition Modbus_create_dockerfile (h : Handler) (folder : string) : M Handler :=
  let text := lines [
    "FROM qpadgham/mymodbus:" +:+ image_tag h;
    "";
    "COPY /setup.json /setup.json";
    "    " ] in
  let h' := set_dockerfile_content text h in
  save_dockerfile h' folder;; mret h'.

(** The loop of [MSSQLHandler.create_dockerfile] that collects
    [shortened_filenames]. *)
Definition shortened_filenames (bak_files : list string) : list string :=
  flat_map
    (fun file =>
       let base_name := Py.os_path_basename file in
       match match_bak_anchored base_name with
       | Some group1 => [group1 +:+ ".bak"]
       | None => []
       end)
    bak_files.

Definition copy_lines (bak_files : list string) : list string :=
  (fun pair : string * string =>
     "COPY /" +:+ pair.1 +:+ " /docker-entrypoint-initdb.d/" +:+ pair.2)
  <$> Py.zip bak_files (shortened_filenames bak_files).

Definition chown_lines (bak_files : list string) : list string :=
  (fun shortened_filename =>
     "RUN chown mssql /docker-entrypoint-initdb.d/" +:+ shortened_filename)
  <$> shortened_filenames bak_files.

Definition MSSQL_dockerfile_text (tag : string) (bak_files : list string) : string :=
  Py.nl +:+ "FROM kcollins/mssql:" +:+ tag +:+ Py.nl +:+ Py.nl
  +:+ lines (copy_lines bak_files) +:+ Py.nl
  +:+ "USER root" +:+ Py.nl
  +:+ lines (chown_lines bak_files) +:+ Py.nl
  +:+ "USER mssql" +:+ Py.nl.

(** [MSSQLHandler.create_dockerfile]; [bak_files] is what
    [os.listdir(folder)] returned, in the order it returned it. *)
Definition MSSQL_create_dockerfile (bak_files : list string) (h : Handler)
    (folder : string) : M Handler :=
  let h' := set_dockerfile_content (MSSQL_dockerfile_text (image_tag h) bak_files) h in
  save_dockerfile h' folder;; mret h'.

(** ** The build manager: resolving the handlers *)

Module BuildManager.

(** The loop of [BuildManager.get_handlers]: any exception of
    [get_handler] is caught and reported, and the container skipped. *)
Fixpoint resolve_all (containers : list Container) (handlers : list Handler)
  : M (list Handler) :=
  match containers with
  | [] => mret handlers
  | c :: rest =>
      match HandlerFactory.get_handler c with
      | Ok handler => resolve_all rest (handlers ++ [handler])
      | Raise e =>
          print ("No handler found for " +:+ name c +:+ ", skipping. Error: "
                 +:+ message e);;
          resolve_all rest handlers
      end
  end.

(** [BuildManager.get_handlers] on the list that
    [client.containers.list] answered for the project. *)
Definition get_handlers (project_name : string) (containers : list Container)
  : M (list Handler) :=
  match containers with
  | [] => raise (NoContainersFound ("No running containers found for project '"
                                    +:+ project_name +:+ "'."))
  | _ => resolve_all containers []
  end.

End BuildManager.

(** ** Notions used to state the properties *)

(** The base image name of a container: [tags[0].split(":")[0]]. *)
Definition base_image_name (c : Container) : option string :=
  match image_tags c with
  | tag0 :: _ => head (Py.split ":" tag0)
  | [] => None
  end.

(** The variables of an environment that begin with [SA_PASSWORD=]. *)
Definition sa_password_items (env_list : list string) : list string :=
  List.filter (fun item => Py.startswith item "SA_PASSWORD=") env_list.

(** The resource-limit block whose CPU limit is [str(cpus)]. *)
Definition cpu_limit_block (cpus : float) : pyval :=
  PDict [("resources", PDict [("limits", PDict [("cpus", PFloatStr cpus)])])].

(** A service entry without a deploy key. *)
Definition deploy_key_absent (entry : list (string * pyval)) : Prop :=
  dict_get "deploy" entry = None.

(** The [ports] field of the service entry of a handler. *)
Definition ports_field (image_name : string) (h : Handler) : list pyval :=
  match dict_get "ports" (DockerUtils.service_entry image_name h) with
  | Some (PList l) => l
  | _ => []
  end.

(** Every published binding of every container port of the source
    container is rendered in the [ports] field. *)
Definition every_binding_rendered (image_name : string) (h : Handler) : Prop :=
  forall port bindings binding,
    dict_get port (ports (container h)) = Some (Some bindings) ->
    binding ∈ bindings ->
    PStr (HostPort binding +:+ ":" +:+ port) ∈ ports_field image_name h.

(** One service entry for each of the handlers. *)
Definition one_entry_per_handler (image_name : string) (handlers : list Handler) : Prop :=
  length (DockerUtils.compose_services image_name handlers) = length handlers.

(** *** Sample containers *)

Definition sample_container (name tag : string) (env : list string)
    (nano_cpus : option Z) (ports : list (string * option (list PortBinding)))
    (output : string) (archive : string -> ArchiveResult) : Container :=
  {| name := name; image_tags := [tag]; Env := env; NanoCpus := nano_cpus;
     ports := ports;
     exec_output := fun _ _ => output;
     get_archive := fun _ file => archive file |}.

Definition no_archive (file : string) : ArchiveResult := ArchiveNotFound file.

(** A gateway whose backup command prints no success marker. *)
Definition failing_gateway : Container :=
  sample_container "proj-gateway-1" "inductiveautomation/ignition:8.1"
    ["PATH=/usr/bin"] None
    [("8088/tcp", Some [{| HostIp := "0.0.0.0"; HostPort := "8088" |}]);
     ("8043/tcp", None)]
    "Error: gateway is not running" no_archive.

(** A web server, for which no handler is registered. *)
Definition web_server : Container :=
  sample_container "proj-web-1" "nginx:latest" [] None [] "" no_archive.

(** A database server with one admin password and one without any. *)
Definition database : Container :=
  sample_container "proj-db-1" "kcollins/mssql:2019"
    ["PATH=/usr/bin"; "SA_PASSWORD=s3cr=t"; "MSSQL_PID=Express"] None [] "" no_archive.

Definition database_without_password : Container :=
  sample_container "proj-db-1" "kcollins/mssql:2019" ["PATH=/usr/bin"] None [] ""
    no_archive.

(** A container that publishes port 80 on two host ports. *)
Definition two_host_ports : list (string * option (list PortBinding)) :=
  [("80/tcp", Some [{| HostIp := "0.0.0.0"; HostPort := "8080" |};
                    {| HostIp := "0.0.0.0"; HostPort := "8081" |}])].

Definition two_port_publisher : Container :=
  sample_container "proj-plc-1" "qpadgham/mymodbus:1.0" [] None two_host_ports ""
    no_archive.

(** Two replicas of one compose service. *)
Definition replica (index : string) : Container :=
  sample_container ("proj-web-" +:+ index) "qpadgham/mymodbus:1.0" [] None [] ""
    no_archive.

Definition empty_world : World :=
  {| fs := ∅; events := []; stdin := []; history := [] |}.

(** A handler as the registry resolves it, or nothing when it raises. *)
Definition resolved (c : Container) : option Handler :=
  match HandlerFactory.get_handler c with
  | Ok h => Some h
  | Raise _ => None
  end.

(** *** Exact quotients *)







(** A protocol gateway limited to half a CPU. *)
Definition half_cpu : Container :=
  sample_container "proj-plc-1" "qpadgham/mymodbus:1.0" [] (Some 500000000) [] ""
    no_archive.

(** *** Extraction *)

(** Where the fetched archive of an in-container path is written. *)
Definition outer_path (destination file : string) : string :=
  Py.os_path_join destination (Py.lower (Py.os_path_basename file)).

(** An archive that unpacks: its first member is a regular file with a
    name that no later member bears, as in the one-entry archive the
    engine answers for a file. *)
Definition unpacks_to (members : list TarMember) (inner_name content : string) : Prop :=
  exists rest,
    members = {| member_name := inner_name; member_body := RegularFile content |} :: rest /\
    inner_name ≠ "" /\
    inner_name ∉ member_name <$> rest.

(** What the engine answers for a path lets the copy go through: an
    engine error, an empty archive, or an archive that unpacks. *)
Definition fetches_cleanly (handler : Handler) (hist : History) (file : string) : Prop :=
  match get_archive (container handler) hist file with
  | Archive [] => True
  | Archive members => exists inner_name content, unpacks_to members inner_name content
  | ArchiveNotFound _ | ArchiveAPIError _ => True
  end.

(** The writes and prints of one copy, as the extraction routine is
    described: the archive under the lowercased basename, then its first
    member under the member's own name. *)
Definition copy_events (handler : Handler) (destination : string) (hist : History)
    (file : string) : list Event :=
  let copied :=
    Print ("Successfully copied " +:+ Py.lower (Py.os_path_basename file) +:+ " from "
           +:+ container_name handler +:+ " to " +:+ destination) in
  match get_archive (container handler) hist file with
  | Archive [] =>
      [ Write (outer_path destination file) (Tar []);
        Print "Inner archive file not found within the outer archive.";
        copied ]
  | Archive (first :: rest) =>
      match member_body first with
      | RegularFile content =>
          [ Write (outer_path destination file) (Tar (first :: rest));
            Write (Py.os_path_join destination (member_name first)) (Raw content);
            copied ]
      | Directory =>
          (* the routine raises after this write *)
          [ Write (outer_path destination file) (Tar (first :: rest)) ]
      end
  | ArchiveNotFound _ =>
      [ Print ("File " +:+ file +:+ " not found in container " +:+ container_name handler) ]
  | ArchiveAPIError msg => [ Print ("Error copying file: " +:+ msg) ]
  end.

(** The world after some events: the writes reach the file system. *)
Definition record (e : Event) (w : World) : World :=
  {| fs := match e with Write path data => <[path := data]> (fs w) | _ => fs w end;
     events := events w ++ [e]; stdin := stdin w; history := history w |}.

Definition record_all (es : list Event) (w : World) : World := foldl (flip record) w es.

(** A path like [/backups/DB1_20230101_000000.bak]: the archive is
    written under the lowercased name, its member under its own. *)
Definition capital_backup : list TarMember :=
  [{| member_name := "DB1_20230101_000000.bak"; member_body := RegularFile "bytes" |}].

Definition backup_store : Container :=
  sample_container "proj-db-1" "kcollins/mssql:2019" [] None [] ""
    (fun file => if String.eqb file "/backups/DB1_20230101_000000.bak"
                 then Archive capital_backup else ArchiveNotFound file).

(** *** Backup file names *)

(** A stamp: eight digits, an underscore, six digits. *)
Definition is_stamp (stamp : string) : bool :=
  match take_digits 8 stamp with
  | Some (_, String c rest) =>
      Ascii.eqb c "_" &&
      match take_digits 6 rest with
      | Some (_, EmptyString) => true
      | _ => false
      end
  | _ => false
  end.

(** A name that stays on one line. *)
Fixpoint one_line (s : string) : bool :=
  match s with
  | EmptyString => true
  | String c s' => negb (Ascii.eqb c Py.LF) && one_line s'
  end.

(** A pair of a name and a stamp whose file name
    [<name>_<digits8>_<digits6>.bak] the pattern of
    [get_latest_bak_files] reads back. *)
Definition well_named (entry : string * string) : Prop :=
  one_line entry.1 = true /\ is_stamp entry.2 = true.

(** The loop body of [get_latest_bak_files] on a name and a stamp. *)
Definition update_entry (file_dict : list (string * string)) (entry : string * string)
  : list (string * string) :=
  match dict_get entry.1 file_dict with
  | None => dict_set entry.1 entry.2 file_dict
  | Some latest =>
      if String.ltb latest entry.2 then dict_set entry.1 entry.2 file_dict
      else file_dict
  end.

(** [file_dict] holds, for the entries [seen] so far, each name once
    with its greatest stamp. *)
Definition latest_of (seen file_dict : list (string * string)) : Prop :=
  NoDup (dict_keys file_dict) /\
  (forall n, n ∈ dict_keys file_dict <-> n ∈ seen.*1) /\
  (forall n d, dict_get n file_dict = Some d ->
     (n, d) ∈ seen /\ forall d', (n, d') ∈ seen -> (d' ≤ d)%string).

Definition has_name (n : string) (entry : string * string) : Prop := entry.1 = n.

#[local] Instance has_name_dec n entry : Decision (has_name n entry).
Proof. unfold has_name. apply _. Defined.

(** The COPY line of a backup file. *)
Definition copy_line (file : string) (group1 : string) : string :=
  "COPY /" +:+ file +:+ " /docker-entrypoint-initdb.d/" +:+ group1 +:+ ".bak".

(** Two replicas of one service resolve to two handlers of one short
    name. *)
Definition replica_handlers : list Handler :=
  omap resolved [replica "1"; replica "2"].

(** A gateway and a database: two handlers of two names. *)
Definition distinct_handlers : list Handler :=
  omap resolved [failing_gateway; database].

(** The handler the registry resolves for [backup_store]. *)
Definition backup_handler : Handler :=
  {| class := MSSQLHandler; container := backup_store; container_name := "db";
     image_name := "kcollins/mssql"; image_tag := "2019"; dockerfile_content := "";
     environment_variables := ["ACCEPT_EULA=Y"]; deploy := PNone |}.

Definition backup_paths : list string :=
  ["/backups/DB1_20230101_000000.bak"; "/backups/gone_20230101_000000.bak"].

(** Two backups of one database and one of another. *)
Definition sample_entries : list (string * string) :=
  [("db1", "20230101_000000"); ("db1", "20230615_120000"); ("db2", "20230101_000000")].

(** ** The host: the engine's client and the directory listing *)

(** What [client.images.build] answers: the tags of the image, a
    [BuildError] or an [APIError]. *)
Inductive BuildResult : Type :=
| Built (tags : list string)
| BuildFailed (msg : string)
| BuildAPIError (msg : string).

(** The engine and the operating system as the program reaches them.
    Builds and listings see the local files as they are at the time and
    always answer; creating directories is not part of the file map. *)
Record Host : Type := {
  containers_list : string -> list Container;
    (* client.containers.list(filters={"label": label}) *)
  images_build : gmap string FileData -> string -> string -> BuildResult;
    (* client.images.build(path=.., tag=.., rm=True) *)
  listdir : gmap string FileData -> string -> list string;
    (* os.listdir(folder) *)
  text_encoding : string
    (* the encoding of a file opened in text mode: the locale's *)
}.

(** [str(tags)] for tags without quotes, backslashes or control
    characters. *)
Definition tags_repr (tags : list string) : string :=
  "[" +:+ Py.join ", " ((fun t => "'" +:+ t +:+ "'") <$> tags) +:+ "]".

(** The filter of [DockerUtils.get_running_containers]. *)
Definition project_label (project_name : string) : string :=
  "com.docker.compose.project=" +:+ project_name.

(** The tag under which [DockerUtils.build_image] builds. *)
Definition build_tag (image_name tag : string) : string :=
  "qpadgham/" +:+ image_name +:+ ":" +:+ tag.

(** [DockerUtils.build_image] *)
Definition build_image (host : Host) (dockerfile_path image_name tag : string) : M unit :=
  print ("Building image from dockerfile at location: " +:+ dockerfile_path);;
  ((fun w =>
      match images_build host (fs w) dockerfile_path (build_tag image_name tag) with
      | Built tags => print ("Successfully built image: " +:+ tags_repr tags) w
      | BuildFailed e => print ("Build failed: " +:+ e) w
      | BuildAPIError e => print ("Error during API call: " +:+ e) w
      end) : M unit).

(** [ContainerHandler.create_derived_image] *)
Definition create_derived_image (host : Host) (h : Handler) (folder image_name : string)
  : M unit :=
  build_image host folder image_name (container_name h).

(** [handler.create_dockerfile(folder)], dispatched on the class; the
    database handler lists the folder first. *)
Definition create_dockerfile (host : Host) (h : Handler) (folder : string) : M Handler :=
  match class h with
  | IgnitionHandler => Ignition_create_dockerfile h folder
  | ModbusHandler => Modbus_create_dockerfile h folder
  | MSSQLHandler =>
      fun w => MSSQL_create_dockerfile (listdir host (fs w) folder) h folder w
  end.

(** ** The build manager *)

Record Manager : Type := {
  project_name : string;
  hanlders : list Handler;
  base_folder : string;
  image_name_of : string   (* self.image_name *)
}.

(** [BuildManager.__init__]; the containers are those the engine lists
    for the project label. *)
Definition BuildManager_init (host : Host) (project_name image_name destination_folder : string)
  : M Manager :=
  handlers ← BuildManager.get_handlers project_name
               (containers_list host (project_label project_name));
  mret {| project_name := project_name; hanlders := handlers;
          base_folder := destination_folder; image_name_of := image_name |}.

(** [BuildManager.create_container_folder]: the path it returns. *)
Definition create_container_folder (base_folder : string) (handler : Handler) : string :=
  let folder_string := container_name handler in
  let folder_string_lower := Py.lower folder_string in
  Py.os_path_join base_folder folder_string_lower.

(** [BuildManager.create_derived_images]; the handlers come back with
    the Dockerfile text each one has stored. *)
Fixpoint create_derived_images (host : Host) (base_folder image_name : string)
    (handlers : list Handler) : M (list Handler) :=
  match handlers with
  | [] => mret []
  | handler :: rest =>
      let folder := create_container_folder base_folder handler in
      extract_resources handler folder;;
      handler' ← create_dockerfile host handler folder;
      create_derived_image host handler' folder image_name;;
      rest' ← create_derived_images host base_folder image_name rest;
      mret (handler' :: rest')
  end.

(** The text of [BuildManager.create_build_image]. *)
Definition build_dockerfile_content (image_name : string) : string :=
  lines [
    "";
    "FROM docker";
    "";
    "#move compose file in and make it accessible";
    "COPY /docker-compose.yml /usr/local/bin/" +:+ image_name +:+ "/docker-compose.yml";
    "RUN chmod +x  /usr/local/bin/" +:+ image_name +:+ "/docker-compose.yml";
    "";
    "#move edge shark comopse file and make it accessible";
    "COPY /docker-compose_WS.yml /usr/local/bin/edgeshark/docker-compose.yml";
    "RUN chmod +x /usr/local/bin/edgeshark/docker-compose.yml";
    "";
    "#move entry shim";
    "COPY /entrypoint-shim.sh /usr/local/bin/entrypoint-shim.sh";
    "RUN chmod +x /usr/local/bin/entrypoint-shim.sh";
    "";
    "ENTRYPOINT [ " +:+ Py.dq +:+ "/usr/local/bin/entrypoint-shim.sh" +:+ Py.dq +:+ " ]" ].

(** [BuildManager.create_build_image] *)
Definition create_build_image (host : Host) (base_folder image_name : string) : M unit :=
  let dockerfile_path := Py.os_path_join base_folder "dockerfile" in
  write_file dockerfile_path (Raw (build_dockerfile_content image_name));;
  build_image host base_folder image_name "build".

(** The text of [BuildManager.create_shim]. *)
Definition shim_content (image_name : string) : string :=
  lines [
    "#!/bin/sh";
    "set -euo pipefail";
    "echo " +:+ Py.dq +:+ "Starting compose script and normal entry point..." +:+ Py.dq;
    "";
    "#start the normal entrypoint in the background";
    "/usr/local/bin/docker-entrypoint.sh " +:+ Py.dq +:+ "$@" +:+ Py.dq +:+ " &";
    "";
    "while ! docker ps";
    "do";
    "sleep 2";
    "done";
    "";
    "#now that docker is running, compose up";
    "docker compose -f  /usr/local/bin/" +:+ image_name +:+ "/docker-compose.yml up -d";
    "";
    "#compose up edge shark";
    "docker compose -f /usr/local/bin/edgeshark/docker-compose.yml up -d";
    "";
    "#kick off built in entrypoint";
    "exit 0";
    "        " ].

(** [BuildManager.create_shim] *)
Definition create_shim (base_folder image_name : string) : M unit :=
  let shim_path := Py.os_path_join base_folder "entrypoint-shim.sh" in
  write_file shim_path (Raw (shim_content image_name));;
  print ("Generated shim at: " +:+ shim_path).

(** [BuildManager.run] *)
Definition run (host : Host) (m : Manager) : M unit :=
  handlers ← create_derived_images host (base_folder m) (image_name_of m) (hanlders m);
  DockerUtils.create_compose_file (text_encoding host) (image_name_of m) handlers
    (base_folder m);;
  create_shim (base_folder m) (image_name_of m);;
  create_build_image host (base_folder m) (image_name_of m).

(** The script: [BuildManager("modbus", "modbus")] in the working
    directory [cwd], then [run]. *)
Definition main (host : Host) (cwd : string) : M unit :=
  manager ← BuildManager_init host "modbus" "modbus" cwd;
  run host manager.

(** ** Further notions used to state properties *)

(** A field of a container name: not empty and without hyphen. *)
Fixpoint no_hyphen (s : string) : bool :=
  match s with
  | EmptyString => true
  | String c s' => negb (Ascii.eqb c "-") && no_hyphen s'
  end.

Fixpoint all_digits (s : string) : bool :=
  match s with
  | EmptyString => true
  | String c s' => Py.is_digit c && all_digits s'
  end.

Definition name_field (s : string) : Prop := s ≠ "" /\ no_hyphen s = true.

Definition index_field (s : string) : Prop := s ≠ "" /\ all_digits s = true.

(** The name [<project>-<service>-<index>] the engine gives a
    container of a compose project. *)
Definition compose_name (project service index : string) : string :=
  project +:+ "-" +:+ service +:+ "-" +:+ index.

(** What [get_handlers] prints for a container it skips. *)
Definition skip_message (c : Container) (e : exn) : string :=
  "No handler found for " +:+ name c +:+ ", skipping. Error: " +:+ message e.

Definition skipped (containers : list Container) : list Event :=
  flat_map (fun c => match HandlerFactory.get_handler c with
                     | Ok _ => []
                     | Raise e => [Print (skip_message c e)]
                     end) containers.

(** A compose service whose name has a hyphen of its own. *)
Definition hyphenated_service : Container :=
  sample_container "proj-my-service-1" "kcollins/mssql:2019" [] None [] "" no_archive.

(** A container of a deleted image: no tag is left. *)
Definition untagged : Container :=
  {| name := "proj-old-1"; image_tags := []; Env := []; NanoCpus := None; ports := [];
     exec_output := fun _ _ => ""; get_archive := fun _ file => ArchiveNotFound file |}.

Definition mixed_project : list Container :=
  [failing_gateway; web_server; hyphenated_service; untagged; database].

(** A file name that the pattern of [get_latest_bak_files] reads. *)
Definition recognised (file : string) : Prop := is_Some (match_bak file).

#[local] Instance recognised_dec file : Decision (recognised file).
Proof. unfold recognised. apply _. Defined.

(** A listing of the backups folder with other files in it. *)
Definition mixed_listing : list string :=
  ["/backups/db1_20230101_000000.bak"; "/backups/readme.txt";
   "/backups/db1_20230615_120000.bak"; "/backups/db2_20230101_000000.bak.old"].

(** A name without slash, as a directory listing gives it. *)
Fixpoint no_slash (s : string) : bool :=
  match s with
  | EmptyString => true
  | String c s' => negb (Ascii.eqb c "/") && no_slash s'
  end.

(** A name of the listing that [create_dockerfile] takes for a backup. *)
Definition is_backup_name (file : string) : Prop :=
  is_Some (match_bak_anchored (Py.os_path_basename file)).

(** The Dockerfile of the database handler without any backup. *)
Definition MSSQL_dockerfile_skeleton (tag : string) : string :=
  lines [ ""; "FROM kcollins/mssql:" +:+ tag; ""; ""; "USER root"; ""; "USER mssql"; "" ].

(** The registry key of each class. *)
Definition registered_image (cls : HandlerClass) : string :=
  match cls with
  | IgnitionHandler => "inductiveautomation/ignition"
  | ModbusHandler => "qpadgham/mymodbus"
  | MSSQLHandler => "kcollins/mssql"
  end.

(** The [command] of the loop of [MSSQLHandler.prepare_files]. *)
Definition backup_command (db_name : string) : string :=
  "sh -c " +:+ Py.dq +:+ "./backup.sh " +:+ db_name +:+ Py.dq.

(** Where the umbrella image installs the compose descriptor. *)
Definition installed_compose_path (image_name : string) : string :=
  "/usr/local/bin/" +:+ image_name +:+ "/docker-compose.yml".

(** A host that builds every image and lists no file. *)
Definition obliging_host (containers : list Container) : Host :=
  {| containers_list := fun _ => containers;
     images_build := fun _ _ tag => Built [tag];
     listdir := fun _ _ => [];
     text_encoding := "UTF-8" |}.

(** A host whose builds all fail. *)
Definition failing_host (containers : list Container) : Host :=
  {| containers_list := fun _ => containers;
     images_build := fun _ _ tag => BuildFailed "no such file";
     listdir := fun _ _ => [];
     text_encoding := "UTF-8" |}.

(** A protocol gateway whose configuration file the engine hands out. *)
Definition plc : Container :=
  sample_container "modbus-plc-1" "qpadgham/mymodbus:1.0" [] (Some 2000000000)
    [("502/tcp", Some [{| HostIp := "0.0.0.0"; HostPort := "5020" |}])] ""
    (fun file => if String.eqb file "/setup.json"
                 then Archive [{| member_name := "setup.json";
                                  member_body := RegularFile "{}" |}]
                 else ArchiveNotFound file).

Definition plc_manager : Manager :=
  {| project_name := "modbus"; hanlders := omap resolved [plc];
     base_folder := "out"; image_name_of := "modbus" |}.

Definition gateway_manager : Manager :=
  {| project_name := "proj"; hanlders := omap resolved [failing_gateway; plc];
     base_folder := "out"; image_name_of := "stack" |}.

(** The handler the registry resolves for [plc]. *)
Definition plc_handler : Handler :=
  {| class := ModbusHandler; container := plc; container_name := "plc";
     image_name := "qpadgham/mymodbus"; image_tag := "1.0"; dockerfile_content := "";
     environment_variables := []; deploy := cpu_limit_block 2%float |}.

(** A host that builds one reference only. *)
Definition picky_host : Host :=
  {| containers_list := fun _ => [];
     images_build := fun _ _ tag =>
       if String.eqb tag "qpadgham/stack:plc" then Built [tag] else BuildFailed "denied";
     listdir := fun _ _ => [];
     text_encoding := "UTF-8" |}.

(** A terminal on which two lines wait to be read. *)
Definition terminal_world : World :=
  {| fs := ∅; events := []; stdin := [" sales , hr "; "next"]; history := [] |}.


(** A field of an image tag: without colon. *)
Fixpoint no_colon (s : string) : bool :=
  match s with
  | EmptyString => true
  | String c s' => negb (Ascii.eqb c ":") && no_colon s'
  end.

(** What [build_image] prints for an answer of the engine. *)
Definition build_report (answer : BuildResult) : string :=
  match answer with
  | Built tags => "Successfully built image: " +:+ tags_repr tags
  | BuildFailed e => "Build failed: " +:+ e
  | BuildAPIError e => "Error during API call: " +:+ e
  end.

(** What the extraction prints for a path that the engine refuses. *)
Definition refusal_line (handler : Handler) (hist : History) (file : string)
  : option string :=
  match get_archive (container handler) hist file with
  | Archive _ => None
  | ArchiveNotFound _ =>
      Some ("File " +:+ file +:+ " not found in container " +:+ container_name handler)
  | ArchiveAPIError msg => Some ("Error copying file: " +:+ msg)
  end.






(** A database server whose backup script knows the database [sales]
    only. *)
Definition sales_server : Container :=
  {| name := "proj-db-1"; image_tags := ["kcollins/mssql:2019"]; Env := [];
     NanoCpus := None; ports := [];
     exec_output := fun _ command =>
       if Py.contains "sales" command then "BACKUP DATABASE successfully processed"
       else "Msg 911: database does not exist";
     get_archive := fun _ file => ArchiveNotFound file |}.

Definition sales_handler : Handler :=
  {| class := MSSQLHandler; container := sales_server; container_name := "db";
     image_name := "kcollins/mssql"; image_tag := "2019"; dockerfile_content := "";
     environment_variables := ["ACCEPT_EULA=Y"]; deploy := PNone |}.


(** * Properties *)

Import DockerUtils.

(** ** Results and string built-ins *)

Lemma split_not_empty (sep : ascii) (s : string) : Py.split sep s ≠ [].
Proof.
  destruct s as [|c s]; simpl; [done|].
  destruct (Ascii.eqb c sep); [done|]. by destruct (Py.split sep s).
Qed.

Lemma py_index_head {A : Type} (l : list A) (a : A) :
  head l = Some a -> py_index l 0 = Ok a.
Proof. destruct l; simpl; [done|]. by intros [= ->]. Qed.

Lemma prefix_inv (p s : string) :
  String.prefix p s = true -> exists rest, s = p +:+ rest.
Proof.
  revert s; induction p as [|c p IH]; intros [|c' s] H; simpl in *;
    try done; try by eexists.
  revert H. destruct (ascii_dec c c') as [->|]; [|done]. intros H.
  destruct (IH s H) as [rest ->]. by exists rest.
Qed.

(** ** The handler registry *)

(** [get_handler] looks the base image name up in the registry. *)
Lemma get_handler_lookup (c : Container) (image_name : string) :
  base_image_name c = Some image_name ->
  HandlerFactory.get_handler c =
    match HandlerFactory.handlers !! image_name with
    | Some cls => HandlerFactory.construct cls c
    | None => Raise (HandlerNotFoundError image_name)
    end.
Proof.
  unfold base_image_name, HandlerFactory.get_handler.
  destruct (image_tags c) as [|tag0 rest]; [done|].
  intros Hhead. cbn. by rewrite (py_index_head _ _ Hhead).
Qed.

(** A container without any image tag has no base image name, and
    resolving it raises [IndexError]. *)
Lemma get_handler_untagged (c : Container) :
  image_tags c = [] ->
  base_image_name c = None /\ HandlerFactory.get_handler c = Raise IndexError.
Proof.
  intros H. unfold base_image_name, HandlerFactory.get_handler. by rewrite H.
Qed.

(** C2: for a container whose base image name is not a key of the
    registry, [get_handler] raises [HandlerNotFoundError] carrying that
    very name, hence no exception of another kind. *)
Theorem get_handler_unregistered (c : Container) (image_name : string) :
  base_image_name c = Some image_name ->
  HandlerFactory.handlers !! image_name = None ->
  HandlerFactory.get_handler c = Raise (HandlerNotFoundError image_name).
Proof.
  intros Hname Hnone. by rewrite (get_handler_lookup c image_name Hname), Hnone.
Qed.

Lemma get_handler_unregistered_witness :
  base_image_name web_server = Some "nginx" /\
  HandlerFactory.handlers !! "nginx" = None /\
  HandlerFactory.get_handler web_server = Raise (HandlerNotFoundError "nginx").
Proof.
  split; [reflexivity|]. split; [reflexivity|].
  apply (get_handler_unregistered web_server "nginx"); reflexivity.
Defined.

(** The build manager reports such a container and goes on. *)
Lemma resolve_all_skips_unregistered (c : Container) (image_name : string)
    (rest : list Container) (acc : list Handler) (w : World) :
  base_image_name c = Some image_name ->
  HandlerFactory.handlers !! image_name = None ->
  BuildManager.resolve_all (c :: rest) acc w =
    (print ("No handler found for " +:+ name c +:+ ", skipping. Error: "
            +:+ "No handler found for image: " +:+ image_name);;
     BuildManager.resolve_all rest acc) w.
Proof.
  intros Hb Hn. cbn [BuildManager.resolve_all].
  by rewrite (get_handler_lookup c image_name Hb), Hn.
Qed.

(** ** The database handler's environment *)

Lemma sa_password_entry (item : string) :
  Py.startswith item "SA_PASSWORD=" = true ->
  exists password,
    py_index (Py.split_once "=" item) 1 = Ok password /\
    "SA_PASSWORD=" +:+ password = item.
Proof.
  intros H. apply prefix_inv in H as [rest ->]. by exists rest.
Qed.

Lemma get_sa_password_loop_spec (env_list acc : list string) :
  get_sa_password_loop env_list acc = Ok (acc ++ sa_password_items env_list).
Proof.
  revert acc; induction env_list as [|item rest IH]; intros acc; simpl.
  - by rewrite app_nil_r.
  - destruct (Py.startswith item "SA_PASSWORD=") eqn:Hs.
    + destruct (sa_password_entry item Hs) as (password & Hidx & Hitem).
      rewrite Hidx. cbn [mbind result_bind]. rewrite Hitem, IH.
      by rewrite <- app_assoc.
    + apply IH.
Qed.

(** C10: when the base constructor accepts the container, the database
    handler is built without error; its environment is [ACCEPT_EULA=Y]
    followed by the container's [SA_PASSWORD=] variables, one entry for
    each, in their order, so it is exactly [ACCEPT_EULA=Y] when there is
    none. *)
Theorem MSSQLHandler_environment (c : Container) (h0 : Handler) :
  ContainerHandler_init MSSQLHandler c = Ok h0 ->
  exists h,
    MSSQLHandler_init c = Ok h /\
    environment_variables h = "ACCEPT_EULA=Y" :: sa_password_items (Env c) /\
    (sa_password_items (Env c) = [] -> environment_variables h = ["ACCEPT_EULA=Y"]).
Proof.
  intros Hinit. unfold MSSQLHandler_init. rewrite Hinit. cbn.
  unfold get_sa_password. cbn.
  assert (container h0 = c) as ->.
  { unfold ContainerHandler_init in Hinit.
    destruct (search_container_name (name c)); [|done].
    destruct (py_index (image_tags c) 0) as [tag0|]; [|done]. cbn in Hinit.
    destruct (py_index (Py.split ":" tag0) 0); [|done]. cbn in Hinit.
    destruct (py_index (Py.split ":" tag0) 1); [|done]. cbn in Hinit.
    by injection Hinit as <-. }
  rewrite get_sa_password_loop_spec. cbn.
  eexists; split; [reflexivity|]. cbn. split; [done|]. by intros ->.
Qed.

Lemma MSSQLHandler_environment_witness :
  exists h0, ContainerHandler_init MSSQLHandler database = Ok h0 /\
  exists h,
    MSSQLHandler_init database = Ok h /\
    environment_variables h = "ACCEPT_EULA=Y" :: sa_password_items (Env database) /\
    (sa_password_items (Env database) = [] ->
     environment_variables h = ["ACCEPT_EULA=Y"]).
Proof.
  eexists. split; [reflexivity|].
  eapply (MSSQLHandler_environment database). reflexivity.
Defined.

Example MSSQLHandler_one_password :
  environment_variables <$> resolved database
  = Some ["ACCEPT_EULA=Y"; "SA_PASSWORD=s3cr=t"].
Proof. reflexivity. Qed.

Example MSSQLHandler_no_password :
  environment_variables <$> resolved database_without_password
  = Some ["ACCEPT_EULA=Y"].
Proof. reflexivity. Qed.

(** ** The CPU limit of the protocol gateway *)

Lemma get_deploy_of_nano_cpus (c : Container) (nano_cpus : Z) (cpus : float) :
  default 0 (NanoCpus c) = nano_cpus ->
  nano_cpus_to_cpus nano_cpus = Ok cpus ->
  get_deploy c = Ok (cpu_limit_block cpus).
Proof. unfold get_deploy. by intros -> ->. Qed.

Lemma get_deploy_two_cpus (c : Container) :
  NanoCpus c = Some 2000000000 -> get_deploy c = Ok (cpu_limit_block 2%float).
Proof.
  intros H. by apply (get_deploy_of_nano_cpus c 2000000000); [rewrite H|].
Qed.

Lemma get_deploy_no_quota (c : Container) :
  NanoCpus c = None \/ NanoCpus c = Some 0 ->
  get_deploy c = Ok (cpu_limit_block 0%float).
Proof.
  intros H. by apply (get_deploy_of_nano_cpus c 0); [destruct H as [-> | ->]|].
Qed.







Example get_deploy_half_cpu : get_deploy half_cpu = Ok (cpu_limit_block 0.5%float).
Proof. vm_compute. reflexivity. Qed.

(** ** Dictionaries *)

Section DictFacts.
Context {V : Type}.
Implicit Types (d : list (string * V)) (k : string) (v : V).

Lemma dict_get_set_eq d k v : dict_get k (dict_set k v d) = Some v.
Proof.
  induction d as [|[k' v'] d IH]; simpl.
  - by rewrite String.eqb_refl.
  - destruct (String.eqb k k') eqn:E; simpl.
    + by rewrite String.eqb_refl.
    + by rewrite E.
Qed.

Lemma dict_get_set_ne d k k' v :
  k ≠ k' -> dict_get k' (dict_set k v d) = dict_get k' d.
Proof.
  intros Hne. induction d as [|[k0 v0] d IH]; simpl.
  - apply String.eqb_neq in Hne. rewrite String.eqb_sym in Hne. by rewrite Hne.
  - destruct (String.eqb k k0) eqn:E; simpl.
    + apply String.eqb_eq in E as <-.
      assert (String.eqb k' k = false) as ->; [|done].
      apply String.eqb_neq. congruence.
    + by rewrite IH.
Qed.

Lemma dict_get_Some_keys d k v : dict_get k d = Some v -> k ∈ dict_keys d.
Proof.
  induction d as [|[k' v'] d IH]; simpl; [done|].
  destruct (String.eqb k k') eqn:E.
  - apply String.eqb_eq in E as ->. intros _. apply list_elem_of_here.
  - intros H. apply list_elem_of_further. by apply IH.
Qed.

Lemma dict_get_None_keys d k : dict_get k d = None -> k ∉ dict_keys d.
Proof.
  induction d as [|[k' v'] d IH]; simpl.
  - intros _. apply not_elem_of_nil.
  - destruct (String.eqb k k') eqn:E; [done|].
    apply String.eqb_neq in E. intros H. apply not_elem_of_cons. auto.
Qed.

Lemma dict_keys_get d k : k ∈ dict_keys d -> is_Some (dict_get k d).
Proof.
  intros Hin. destruct (dict_get k d) eqn:E; [by eexists|].
  by apply dict_get_None_keys in E.
Qed.

Lemma dict_keys_set_present d k v :
  k ∈ dict_keys d -> dict_keys (dict_set k v d) = dict_keys d.
Proof.
  induction d as [|[k' v'] d IH]; simpl.
  - by intros ?%not_elem_of_nil.
  - destruct (String.eqb k k') eqn:E; simpl.
    + by apply String.eqb_eq in E as ->.
    + intros [->|Hin]%elem_of_cons.
      * by rewrite String.eqb_refl in E.
      * f_equal. by apply IH.
Qed.

Lemma dict_keys_set_absent d k v :
  k ∉ dict_keys d -> dict_keys (dict_set k v d) = dict_keys d ++ [k].
Proof.
  induction d as [|[k' v'] d IH]; simpl; [done|].
  intros [Hne Hnin]%not_elem_of_cons.
  apply String.eqb_neq in Hne. rewrite Hne. simpl.
  f_equal. by apply IH.
Qed.

Lemma dict_keys_set_elem d k k' v :
  k' ∈ dict_keys (dict_set k v d) <-> k' = k \/ k' ∈ dict_keys d.
Proof.
  destruct (decide (k ∈ dict_keys d)) as [Hin|Hnin].
  - rewrite dict_keys_set_present by done. naive_solver.
  - rewrite dict_keys_set_absent by done. rewrite elem_of_app, list_elem_of_singleton.
    naive_solver.
Qed.

Lemma dict_set_NoDup d k v :
  NoDup (dict_keys d) -> NoDup (dict_keys (dict_set k v d)).
Proof.
  intros Hnd. destruct (decide (k ∈ dict_keys d)) as [Hin|Hnin].
  - by rewrite dict_keys_set_present.
  - rewrite dict_keys_set_absent by done.
    apply NoDup_app. split; [done|]. split; [|apply NoDup_singleton].
    intros x Hx ->%list_elem_of_singleton. done.
Qed.

Lemma dict_get_elem_of d k v :
  NoDup (dict_keys d) -> (k, v) ∈ d <-> dict_get k d = Some v.
Proof.
  induction d as [|[k' v'] d IH]; simpl.
  - intros _. split; [by intros ?%not_elem_of_nil|done].
  - intros [Hnin Hnd]%NoDup_cons. rewrite elem_of_cons.
    destruct (String.eqb k k') eqn:E.
    + apply String.eqb_eq in E as ->. split.
      * intros [[= ->]|Hin]; [done|].
        exfalso. apply Hnin. unfold dict_keys. apply list_elem_of_fmap.
        by exists (k', v).
      * intros [= ->]. by left.
    + apply String.eqb_neq in E. rewrite <- (IH Hnd). naive_solver.
Qed.

End DictFacts.

(** ** The compose descriptor *)

Lemma constructed_without_limits (c : Container) (h : Handler) :
  IgnitionHandler_init c = Ok h \/ MSSQLHandler_init c = Ok h -> deploy h = PNone.
Proof.
  unfold IgnitionHandler_init, MSSQLHandler_init, get_sa_password, ContainerHandler_init.
  destruct (search_container_name (name c)); [|by intros [|]].
  destruct (py_index (image_tags c) 0) as [tag0|]; [|by intros [|]]. cbn.
  destruct (py_index (Py.split ":" tag0) 0); [|by intros [|]]. cbn.
  destruct (py_index (Py.split ":" tag0) 1); [|by intros [|]]. cbn.
  intros [[= <-]|H]; [done|].
  destruct (get_sa_password_loop _ _); [|done]. cbn in H. by injection H as <-.
Qed.

(** C4, as the code has it: the entry of a handler without a
    resource-limit block still has the key [deploy], and its value is
    [None], which the descriptor shows as null. *)
Theorem service_entry_deploy_null (image_name : string) (h : Handler) :
  deploy h = PNone ->
  dict_get "deploy" (service_entry image_name h) = Some PNone.
Proof. intros H. cbn. by rewrite H. Qed.

Lemma service_entry_deploy_null_witness :
  exists h, resolved failing_gateway = Some h /\ deploy h = PNone /\
    dict_get "deploy" (service_entry "stack" h) = Some PNone.
Proof.
  eexists. split; [reflexivity|]. split; [reflexivity|].
  apply service_entry_deploy_null. reflexivity.
Defined.

(** The claim C4 as stated fails for the gateway handler: it has no
    resource-limit block and its entry has the key. *)
Lemma deploy_key_not_absent :
  exists h, resolved failing_gateway = Some h /\ deploy h = PNone /\
    ~ deploy_key_absent (service_entry "stack" h).
Proof.
  eexists. split; [reflexivity|]. split; [reflexivity|].
  unfold deploy_key_absent. cbn. discriminate.
Qed.

Lemma dict_get_keys_iff {V : Type} (d : list (string * V)) (k : string) :
  k ∈ dict_keys d <-> is_Some (dict_get k d).
Proof.
  split; [apply dict_keys_get|]. intros [v Hv]. by eapply dict_get_Some_keys.
Qed.

Lemma port_mapping_elem (ports : list (string * option (list PortBinding))) (s : string) :
  s ∈ port_mapping ports <->
  exists port binding rest,
    dict_get port ports = Some (Some (binding :: rest)) /\
    s = HostPort binding +:+ ":" +:+ port.
Proof.
  unfold port_mapping. rewrite list_elem_of_In, in_flat_map. split.
  - intros (port & _ & Hin).
    destruct (dict_get port ports) as [[[|binding rest]|]|] eqn:E;
      try (by destruct Hin).
    destruct Hin as [<-|[]]. by exists port, binding, rest.
  - intros (port & binding & rest & Hget & ->). exists port. split.
    + apply list_elem_of_In. by eapply dict_get_Some_keys.
    + rewrite Hget. by left.
Qed.

(** C5, as the code has it: the [ports] field lists, for each container
    port of the source container that has a binding, the host port of
    its first binding, a colon and the container port, and nothing
    else. *)
Theorem service_entry_ports (image_name : string) (h : Handler) :
  ports_field image_name h = PStr <$> port_mapping (ports (container h)) /\
  forall s,
    s ∈ port_mapping (ports (container h)) <->
    exists port binding rest,
      dict_get port (ports (container h)) = Some (Some (binding :: rest)) /\
      s = HostPort binding +:+ ":" +:+ port.
Proof. split; [reflexivity|]. intros s. apply port_mapping_elem. Qed.

(** The claim C5 as stated fails when one container port is published
    on two host ports: the second binding is not rendered. *)
Lemma second_binding_not_rendered :
  exists h, resolved two_port_publisher = Some h /\ ~ every_binding_rendered "stack" h.
Proof.
  eexists. split; [reflexivity|]. intros H.
  assert (PStr "8081:80/tcp" ∈ [PStr "8080:80/tcp"]) as Hin.
  { apply (H "80/tcp" _ {| HostIp := "0.0.0.0"; HostPort := "8081" |} eq_refl).
    apply list_elem_of_further, list_elem_of_here. }
  apply list_elem_of_singleton in Hin. discriminate.
Qed.

Lemma compose_services_snoc (image_name : string) (handlers : list Handler) (h : Handler) :
  compose_services image_name (handlers ++ [h])
  = dict_set (container_name h) (service_entry image_name h)
      (compose_services image_name handlers).
Proof. unfold compose_services. by rewrite foldl_app. Qed.

(** Whatever the handlers, the keys of the services are their short
    names, each once. *)
Lemma compose_services_keys (image_name : string) (handlers : list Handler) :
  NoDup (dict_keys (compose_services image_name handlers)) /\
  forall k, k ∈ dict_keys (compose_services image_name handlers)
            <-> k ∈ container_name <$> handlers.
Proof.
  induction handlers as [|h handlers [IHnd IH]] using rev_ind.
  - split; [apply NoDup_nil_2|]. intros k. cbn. done.
  - rewrite compose_services_snoc. split; [by apply dict_set_NoDup|].
    intros k. rewrite dict_keys_set_elem, IH, fmap_app, elem_of_app.
    cbn. rewrite list_elem_of_singleton. naive_solver.
Qed.

(** The entry under a key is the one of the last handler of that name. *)
Lemma compose_services_last (image_name : string) (handlers rest : list Handler)
    (h : Handler) :
  container_name h ∉ container_name <$> rest ->
  dict_get (container_name h) (compose_services image_name (handlers ++ h :: rest))
  = Some (service_entry image_name h).
Proof.
  induction rest as [|h' rest IH] using rev_ind; intros Hnin.
  - rewrite compose_services_snoc. apply dict_get_set_eq.
  - rewrite fmap_app, not_elem_of_app in Hnin. destruct Hnin as [Hrest Hh'].
    cbn in Hh'. rewrite list_elem_of_singleton in Hh'.
    rewrite app_comm_cons, app_assoc, compose_services_snoc.
    rewrite dict_get_set_ne by congruence. by apply IH.
Qed.

(** C6, as the code has it: for handlers with pairwise distinct short
    names the services are keyed by exactly those names, in order, so
    there are as many entries as handlers, and each handler finds its
    own entry under its short name. *)
Theorem compose_services_distinct_names (image_name : string) (handlers : list Handler) :
  NoDup (container_name <$> handlers) ->
  dict_keys (compose_services image_name handlers) = container_name <$> handlers /\
  length (compose_services image_name handlers) = length handlers /\
  forall h, h ∈ handlers ->
    dict_get (container_name h) (compose_services image_name handlers)
    = Some (service_entry image_name h).
Proof.
  intros Hnd.
  assert (dict_keys (compose_services image_name handlers) = container_name <$> handlers)
    as Hkeys.
  { induction handlers as [|h handlers IH] using rev_ind; [done|].
    rewrite fmap_app in Hnd. apply NoDup_app in Hnd as (Hnd & Hfresh & _).
    rewrite compose_services_snoc, dict_keys_set_absent, IH, fmap_app; [done..|].
    rewrite IH by done. intros Hin. by apply (Hfresh _ Hin), list_elem_of_here. }
  split; [done|]. split.
  - apply (f_equal length) in Hkeys. unfold dict_keys in Hkeys.
    by rewrite !length_fmap in Hkeys.
  - intros h (before & rest & ->)%list_elem_of_split.
    apply compose_services_last.
    rewrite fmap_app, fmap_cons in Hnd.
    apply NoDup_app in Hnd as (_ & _ & Hnd). by apply NoDup_cons in Hnd as [? _].
Qed.

Lemma compose_services_distinct_names_witness :
  NoDup (container_name <$> distinct_handlers) /\
  dict_keys (compose_services "stack" distinct_handlers) = ["gateway"; "db"] /\
  length (compose_services "stack" distinct_handlers) = 2%nat.
Proof.
  assert (NoDup (container_name <$> distinct_handlers)) as Hnd.
  { apply (bool_decide_unpack _). vm_compute. exact I. }
  split; [exact Hnd|].
  destruct (compose_services_distinct_names "stack" distinct_handlers Hnd)
    as (H1 & H2 & _).
  split; [exact H1|exact H2].
Defined.

(** The claim C6 as stated fails for them: two handlers, one entry. *)
Lemma replicas_share_one_entry : ~ one_entry_per_handler "stack" replica_handlers.
Proof. unfold one_entry_per_handler. vm_compute. discriminate. Qed.

(** ** A backup command that fails *)

(** The gateway handler reports a missing success marker and returns
    [None]. *)
Lemma Ignition_prepare_files_no_marker (h : Handler) (w : World) :
  let output := exec_output (container h) (history w) gateway_backup_command in
  Py.contains "backup saved" output = false ->
  exists w',
    Ignition_prepare_files h w = (Ok None, w') /\
    events w' = events w ++ [Print output;
                   Print ("Backup not created successfully for " +:+ container_name h)] /\
    fs w' = fs w.
Proof.
  intros output Hno. unfold Ignition_prepare_files, mbind, M_bind, exec_run.
  cbv beta iota zeta. fold gateway_backup_command. fold output. rewrite Hno.
  cbn -[String.append]. eexists. split; [reflexivity|].
  cbn -[String.append]. by rewrite <- app_assoc.
Qed.

(** The database handler does the same at the first database whose
    backup output has no marker. *)
Lemma backup_databases_no_marker (h : Handler) (db_name : string)
    (rest : list string) (w : World) :
  let command := "sh -c " +:+ Py.dq +:+ "./backup.sh " +:+ db_name +:+ Py.dq in
  let output := exec_output (container h) (history w) command in
  Py.contains "BACKUP DATABASE" output = false ->
  exists w',
    backup_databases h (db_name :: rest) w = (Ok false, w') /\
    events w' = events w ++ [Print output;
                   Print ("Backup not created successfully for " +:+ container_name h
                          +:+ "'s database " +:+ db_name)] /\
    fs w' = fs w.
Proof.
  intros command output Hno.
  unfold backup_databases, mbind, M_bind, exec_run.
  cbv beta iota zeta. fold command. fold output. rewrite Hno.
  cbn -[String.append]. eexists. split; [reflexivity|].
  cbn -[String.append]. by rewrite <- app_assoc.
Qed.

(** The protocol gateway runs no backup command and always asks for its
    one file. *)
Lemma Modbus_prepare_files_always (h : Handler) (w : World) :
  Modbus_prepare_files h w = (Ok (Some ["/setup.json"]), w).
Proof. reflexivity. Qed.

Lemma MSSQL_prepare_files_no_marker (h : Handler) (w : World)
    (line db_name : string) (more_lines rest : list string) :
  let command := "sh -c " +:+ Py.dq +:+ "./backup.sh " +:+ db_name +:+ Py.dq in
  stdin w = line :: more_lines ->
  Py.strip <$> Py.split "," line = db_name :: rest ->
  Py.contains "BACKUP DATABASE" (exec_output (container h) (history w) command) = false ->
  exists w', MSSQL_prepare_files h w = (Ok None, w') /\ fs w' = fs w.
Proof.
  intros command Hin Hnames Hno.
  unfold MSSQL_prepare_files, get_db_names, input, mbind, M_bind, mret, M_ret.
  cbv beta. rewrite Hin. cbv beta iota zeta. rewrite Hnames.
  match goal with
  | |- context [backup_databases h (db_name :: rest) ?w0] =>
      destruct (backup_databases_no_marker h db_name rest w0 Hno) as (w' & -> & _ & Hfs)
  end.
  exists w'. by split.
Qed.

(** Whenever [prepare_files] returns [None], the extraction raises
    [TypeError] before it copies anything. *)
Lemma extract_resources_of_None (h : Handler) (folder : string) (w w' : World) :
  prepare_files h w = (Ok None, w') ->
  extract_resources h folder w = (Raise TypeError, w').
Proof.
  intros H. unfold extract_resources. cbn. unfold mbind, M_bind. by rewrite H.
Qed.

(** C1, where the code departs from it: the gateway handler logs the
    failed backup and returns no files, but then the extraction step
    raises [TypeError] instead of ending softly; nothing is copied. *)
Theorem failed_backup_raises_TypeError :
  exists h w',
    resolved failing_gateway = Some h /\
    prepare_files h empty_world = (Ok None, w') /\
    extract_resources h "stack/gateway" empty_world = (Raise TypeError, w') /\
    events w' = [Print "Error: gateway is not running";
                 Print "Backup not created successfully for gateway"] /\
    fs w' = ∅.
Proof.
  eexists. eexists. split; [reflexivity|]. split; [reflexivity|].
  split; [reflexivity|]. split; reflexivity.
Qed.

(** ** The Dockerfile of the database handler *)

Lemma zip_fmap {A B : Type} (f : A -> B) (l : list A) :
  Py.zip l (f <$> l) = (fun x => (x, f x)) <$> l.
Proof. induction l as [|x l IH]; cbn; [done|]. by rewrite IH. Qed.

(** When every name of the listing is a backup file, each gets its own
    COPY line and its own chown line. *)
Lemma copy_lines_all_backups (bak_files : list string) (group1 : string -> string) :
  Forall (fun file => match_bak_anchored (Py.os_path_basename file) = Some (group1 file))
         bak_files ->
  copy_lines bak_files = (fun file => copy_line file (group1 file)) <$> bak_files /\
  chown_lines bak_files =
    (fun file => "RUN chown mssql /docker-entrypoint-initdb.d/" +:+ group1 file +:+ ".bak")
    <$> bak_files.
Proof.
  intros Hall.
  assert (shortened_filenames bak_files = (fun file => group1 file +:+ ".bak") <$> bak_files)
    as Hshort.
  { unfold shortened_filenames.
    induction Hall as [|file l Hfile _ IH]; [done|].
    cbn -[String.append]. rewrite Hfile, IH. done. }
  unfold copy_lines, chown_lines. rewrite Hshort, zip_fmap, <- !list_fmap_compose.
  split; apply list_fmap_ext; intros; done.
Qed.

(** C9, where the code departs from it: with a Dockerfile left in the
    build directory by an earlier run and listed first, the COPY line
    written for the backup file copies the Dockerfile, and the backup
    file itself is copied by no line. *)
Theorem dockerfile_copies_wrong_file :
  let bak_files := ["dockerfile"; "db1_20230101_000000.bak"] in
  copy_lines bak_files = ["COPY /dockerfile /docker-entrypoint-initdb.d/db1.bak"] /\
  chown_lines bak_files = ["RUN chown mssql /docker-entrypoint-initdb.d/db1.bak"] /\
  (copy_line "db1_20230101_000000.bak" "db1" ∉ copy_lines bak_files) /\
  MSSQL_dockerfile_text "2019" bak_files =
    lines [ "";
            "FROM kcollins/mssql:2019";
            "";
            "COPY /dockerfile /docker-entrypoint-initdb.d/db1.bak";
            "USER root";
            "RUN chown mssql /docker-entrypoint-initdb.d/db1.bak";
            "USER mssql";
            "" ].
Proof.
  cbv zeta. split; [reflexivity|]. split; [reflexivity|]. split; [|reflexivity].
  intros H. apply list_elem_of_singleton in H. discriminate.
Qed.

Example dockerfile_of_backups_only :
  copy_lines ["db1_20230101_000000.bak"; "db2_20230615_120000.bak"]
  = [ "COPY /db1_20230101_000000.bak /docker-entrypoint-initdb.d/db1.bak";
      "COPY /db2_20230615_120000.bak /docker-entrypoint-initdb.d/db2.bak" ].
Proof. reflexivity. Qed.

(** ** Copying files out of a container *)

Lemma getmember_first (inner_name : string) (body : MemberBody) (rest : list TarMember) :
  inner_name ∉ member_name <$> rest ->
  getmember inner_name ({| member_name := inner_name; member_body := body |} :: rest)
  = Some {| member_name := inner_name; member_body := body |}.
Proof.
  intros Hnin. cbn.
  assert (getmember inner_name rest = None) as ->.
  { induction rest as [|m rest IH]; [done|]. cbn in *.
    apply not_elem_of_cons in Hnin as [Hne Hnin]. rewrite (IH Hnin).
    apply not_eq_sym, String.eqb_neq in Hne. by rewrite Hne. }
  by rewrite String.eqb_refl.
Qed.

Lemma record_all_app (es1 es2 : list Event) (w : World) :
  record_all (es1 ++ es2) w = record_all es2 (record_all es1 w).
Proof. unfold record_all. by rewrite foldl_app. Qed.

Lemma record_all_events (es : list Event) (w : World) :
  events (record_all es w) = events w ++ es /\
  history (record_all es w) = history w /\
  stdin (record_all es w) = stdin w.
Proof.
  revert w; induction es as [|e es IH]; intros w.
  - cbn. by rewrite app_nil_r.
  - change (record_all (e :: es) w) with (record_all es (record e w)).
    destruct (IH (record e w)) as (-> & -> & ->). cbn. by rewrite <- app_assoc.
Qed.

Lemma print_record (line : string) (w : World) :
  print line w = (Ok tt, record (Print line) w).
Proof. done. Qed.

Lemma write_file_record (path : string) (data : FileData) (w : World) :
  write_file path data w = (Ok tt, record (Write path data) w).
Proof. done. Qed.

Lemma extract_inner_file_empty (filepath extract_to : string) (w : World) :
  fs w !! filepath = Some (Tar []) ->
  extract_inner_file filepath extract_to w
  = (Ok tt, record (Print "Inner archive file not found within the outer archive.") w).
Proof.
  intros Hfile. unfold extract_inner_file, mbind, M_bind, path_exists, read_file.
  rewrite Hfile, bool_decide_true by (by eexists).
  cbn [negb]. cbv beta. by rewrite Hfile.
Qed.

Lemma extract_inner_file_unpacks (filepath extract_to : string) (w : World)
    (members : list TarMember) (inner_name content : string) :
  fs w !! filepath = Some (Tar members) ->
  unpacks_to members inner_name content ->
  extract_inner_file filepath extract_to w
  = (Ok tt, record (Write (Py.os_path_join extract_to inner_name) (Raw content)) w).
Proof.
  intros Hfile (rest & -> & Hname & Hfresh).
  unfold extract_inner_file, mbind, M_bind, path_exists, read_file.
  rewrite Hfile, bool_decide_true by (by eexists).
  cbn [negb]. cbv beta. rewrite Hfile. cbn [member_name].
  apply String.eqb_neq in Hname. rewrite Hname. cbn [negb].
  by rewrite (getmember_first inner_name (RegularFile content) rest Hfresh).
Qed.

(** One turn of the loop does what [copy_events] says. *)
Lemma extract_one_events (handler : Handler) (destination file : string) (w : World) :
  fetches_cleanly handler (history w) file ->
  extract_one handler destination file w
  = (Ok tt, record_all (copy_events handler destination (history w) file) w).
Proof.
  unfold fetches_cleanly, copy_events, extract_one, try_docker, container_get_archive.
  unfold mbind, M_bind.
  destruct (get_archive (container handler) (history w) file)
    as [[|first rest]|msg|msg]; [| |done..]; cbv beta iota zeta;
    rewrite write_file_record.
  - intros _.
    rewrite (extract_inner_file_empty _ _
               (record (Write (outer_path destination file) (Tar [])) w))
      by apply lookup_insert_eq.
    done.
  - intros (inner_name & content & Hunpacks).
    rewrite (extract_inner_file_unpacks _ _
               (record (Write (outer_path destination file) (Tar (first :: rest))) w)
               (first :: rest) inner_name content)
      by (apply lookup_insert_eq || done).
    destruct Hunpacks as (rest' & [= -> ->] & _). done.
Qed.

Lemma extract_all_events (handler : Handler) (destination : string)
    (files : list string) (w : World) :
  Forall (fetches_cleanly handler (history w)) files ->
  extract_files_from_container handler (Some files) destination w
  = (Ok tt, record_all (flat_map (copy_events handler destination (history w)) files) w).
Proof.
  cbn. revert w. induction files as [|file files IH]; intros w Hall; [done|].
  apply Forall_cons in Hall as [Hfile Hall].
  cbn [for_each flat_map]. unfold mbind, M_bind.
  rewrite (extract_one_events _ _ _ _ Hfile), record_all_app.
  pose proof (record_all_events (copy_events handler destination (history w) file) w)
    as (_ & Hhist & _).
  rewrite IH by (by rewrite Hhist). by rewrite Hhist.
Qed.

(** C8: when the engine answers every path cleanly, the extraction of
    paths [files] ends without an exception, and for each path whose
    archive unpacks it first writes the archive into the destination
    directory under the lowercased basename of the path and directly
    afterwards the first member under the member's own name. *)
Theorem extraction_writes_archive_then_member (handler : Handler)
    (destination : string) (files : list string) (w : World) :
  Forall (fetches_cleanly handler (history w)) files ->
  exists w',
    extract_files_from_container handler (Some files) destination w = (Ok tt, w') /\
    forall file members inner_name content,
      file ∈ files ->
      get_archive (container handler) (history w) file = Archive members ->
      unpacks_to members inner_name content ->
      exists before after,
        events w' = events w ++ before ++
          [ Write (Py.os_path_join destination (Py.lower (Py.os_path_basename file)))
                  (Tar members);
            Write (Py.os_path_join destination inner_name) (Raw content) ] ++ after.
Proof.
  intros Hall. eexists. split; [by apply extract_all_events|].
  intros file members inner_name content Hin Hget (rest & -> & _ & _).
  pose proof (record_all_events
    (flat_map (copy_events handler destination (history w)) files) w) as (-> & _ & _).
  apply list_elem_of_split in Hin as (l1 & l2 & ->).
  rewrite flat_map_app. cbn [flat_map].
  exists (flat_map (copy_events handler destination (history w)) l1).
  unfold copy_events at 2. rewrite Hget. cbn [member_body member_name].
  eexists. cbn [app]. reflexivity.
Qed.

Lemma extraction_writes_archive_then_member_witness :
  Forall (fetches_cleanly backup_handler (history empty_world)) backup_paths /\
  exists w',
    extract_files_from_container backup_handler (Some backup_paths) "stack/db" empty_world
    = (Ok tt, w') /\
    forall file members inner_name content,
      file ∈ backup_paths ->
      get_archive (container backup_handler) (history empty_world) file = Archive members ->
      unpacks_to members inner_name content ->
      exists before after,
        events w' = events empty_world ++ before ++
          [ Write (Py.os_path_join "stack/db" (Py.lower (Py.os_path_basename file)))
                  (Tar members);
            Write (Py.os_path_join "stack/db" inner_name) (Raw content) ] ++ after.
Proof.
  assert (Forall (fetches_cleanly backup_handler (history empty_world)) backup_paths)
    as Hall.
  { repeat constructor. exists "DB1_20230101_000000.bak", "bytes", [].
    split; [reflexivity|]. split; [discriminate|]. apply not_elem_of_nil. }
  split; [exact Hall|].
  exact (extraction_writes_archive_then_member backup_handler "stack/db" backup_paths
           empty_world Hall).
Defined.

(** The two names differ here: the archive lands under the lowercased
    name and its member under the name it has in the archive. *)
Example extraction_of_capital_backup :
  resolved backup_store = Some backup_handler /\
  events (extract_files_from_container backup_handler (Some backup_paths) "stack/db"
            empty_world).2
  = [ Write "stack/db/db1_20230101_000000.bak" (Tar capital_backup);
      Write "stack/db/DB1_20230101_000000.bak" (Raw "bytes");
      Print "Successfully copied db1_20230101_000000.bak from db to stack/db";
      Print "File /backups/gone_20230101_000000.bak not found in container db" ].
Proof. split; reflexivity. Qed.

(** ** Reading backup file names *)

Lemma take_digits_split (n : nat) (s digits rest : string) :
  take_digits n s = Some (digits, rest) ->
  s = digits +:+ rest /\ String.length digits = n /\
  forall rest', take_digits n (digits +:+ rest') = Some (digits, rest').
Proof.
  revert s digits rest. induction n as [|n IH]; intros s digits rest;
    cbn -[Py.is_digit].
  - by intros [= <- <-].
  - destruct s as [|c s]; [done|]. destruct (Py.is_digit c) eqn:Hc; [|done].
    destruct (take_digits n s) as [[d r]|] eqn:Hs; [|done]. cbn.
    intros [= <- <-]. destruct (IH _ _ _ Hs) as (-> & <- & Hre).
    split; [done|]. split; [done|]. intros rest'.
    change (String c d +:+ rest') with (String c (d +:+ rest')).
    cbn -[Py.is_digit]. by rewrite Hc, Hre.
Qed.

Lemma append_cons (x : ascii) (a b : string) : String x a +:+ b = String x (a +:+ b).
Proof. reflexivity. Qed.

Lemma append_nil (b : string) : "" +:+ b = b.
Proof. reflexivity. Qed.

Lemma append_assoc (a b c : string) : (a +:+ b) +:+ c = a +:+ b +:+ c.
Proof.
  induction a as [|x a IH]; [done|]. rewrite !append_cons. by rewrite IH.
Qed.

Lemma length_append (a b : string) :
  String.length (a +:+ b) = (String.length a + String.length b)%nat.
Proof.
  induction a as [|x a IH]; [done|]. rewrite append_cons. cbn. by rewrite IH.
Qed.

Lemma append_nil_r (a : string) : a +:+ "" = a.
Proof. induction a as [|x a IH]; [done|]. by rewrite append_cons, IH. Qed.

Ltac norm_str :=
  repeat (rewrite append_cons || rewrite append_nil || rewrite append_assoc
          || rewrite append_nil_r).

Lemma prefix_nil (s : string) : String.prefix "" s = true.
Proof. by destruct s. Qed.

Lemma expect_underscore (s : string) : expect "_" (String "_" s) = Some s.
Proof. unfold expect. cbn. by rewrite prefix_nil. Qed.

Lemma expect_bak (s : string) :
  expect ".bak" (String "." (String "b" (String "a" (String "k" s)))) = Some s.
Proof. unfold expect. cbn. by rewrite prefix_nil. Qed.

(** A stamp is read back, whatever follows [.bak]. *)
Lemma stamp_bak_of_stamp (stamp rest : string) :
  is_stamp stamp = true ->
  String.length stamp = 15%nat /\
  stamp_bak ("_" +:+ stamp +:+ ".bak" +:+ rest) = Some (stamp, rest).
Proof.
  unfold is_stamp.
  destruct (take_digits 8 stamp) as [[d8 [|c r1]]|] eqn:H8; [done| |done].
  destruct (Ascii.eqb_spec c "_") as [->|]; [|done]. cbn [andb].
  destruct (take_digits 6 r1) as [[d6 [|]]|] eqn:H6; [|done..]. intros _.
  apply take_digits_split in H8 as (-> & Hl8 & H8).
  apply take_digits_split in H6 as (-> & Hl6 & H6).
  split.
  - repeat (rewrite length_append || cbn [String.length]). lia.
  - unfold stamp_bak. norm_str.
    rewrite expect_underscore. cbn [mbind option_bind].
    rewrite H8. cbn [mbind option_bind].
    rewrite expect_underscore. cbn [mbind option_bind].
    rewrite H6. cbn [mbind option_bind].
    rewrite expect_bak. cbn [mbind option_bind]. by norm_str.
Qed.

Lemma drop_append (a b : string) : Py.drop (String.length a) (a +:+ b) = b.
Proof. induction a as [|x a IH]; [by destruct b|]. by rewrite append_cons. Qed.

Lemma expect_inv (lit s rest : string) : expect lit s = Some rest -> s = lit +:+ rest.
Proof.
  unfold expect. destruct (String.prefix lit s) eqn:Hp; [|done].
  apply prefix_inv in Hp as [r ->]. rewrite drop_append. by intros [= ->].
Qed.

(** What [stamp_bak] reads is a stamp between an underscore and
    [.bak]. *)
Lemma stamp_bak_inv (s stamp rest : string) :
  stamp_bak s = Some (stamp, rest) ->
  s = "_" +:+ stamp +:+ ".bak" +:+ rest /\ String.length stamp = 15%nat.
Proof.
  unfold stamp_bak.
  destruct (expect "_" s) as [r0|] eqn:H0; [|done]. cbn [mbind option_bind].
  destruct (take_digits 8 r0) as [[d8 r1]|] eqn:H8; [|done]. cbn [mbind option_bind].
  destruct (expect "_" r1) as [r2|] eqn:H1; [|done]. cbn [mbind option_bind].
  destruct (take_digits 6 r2) as [[d6 r3]|] eqn:H6; [|done]. cbn [mbind option_bind].
  destruct (expect ".bak" r3) as [r4|] eqn:H4; [|done]. cbn [mbind option_bind].
  intros [= <- <-].
  apply expect_inv in H0 as ->. apply expect_inv in H1 as ->.
  apply expect_inv in H4 as ->.
  apply take_digits_split in H8 as (-> & Hl8 & _).
  apply take_digits_split in H6 as (-> & Hl6 & _).
  split; [by norm_str|].
  repeat (rewrite length_append || cbn [String.length]). lia.
Qed.

Lemma match_bak_short (s : string) :
  (String.length s < 20)%nat -> match_bak s = None.
Proof.
  assert (forall s, (String.length s < 20)%nat -> stamp_bak s = None) as Hstamp.
  { intros s0 Hlen. destruct (stamp_bak s0) as [[stamp rest]|] eqn:E; [|done].
    apply stamp_bak_inv in E as [-> Hl]. revert Hlen.
    repeat (rewrite length_append || cbn [String.length]). lia. }
  induction s as [|c s IH]; intros Hlen.
  - cbn [match_bak]. by rewrite (Hstamp _ Hlen).
  - cbn [match_bak]. rewrite (Hstamp _ Hlen). cbn [mbind option_bind].
    rewrite IH by (cbn in Hlen; lia). by destruct (Ascii.eqb c Py.LF).
Qed.

(** The file name of a well-named entry is read back as that entry. *)
Lemma match_bak_filename (entry : string * string) :
  well_named entry -> match_bak (bak_filename entry) = Some entry.
Proof.
  destruct entry as [some_string date_str]. unfold well_named, bak_filename.
  cbn [fst snd]. intros [Hline Hstamp].
  destruct (stamp_bak_of_stamp date_str "" Hstamp) as [Hlen Hread].
  revert Hread. norm_str. intros Hread.
  induction some_string as [|c some_string IH].
  - norm_str. cbn [match_bak]. rewrite Hread. cbn [mbind option_bind].
    rewrite match_bak_short; [done|].
    repeat (rewrite length_append || cbn [String.length]). lia.
  - cbn [one_line] in Hline. apply andb_prop in Hline as [Hc Hline].
    apply negb_true_iff in Hc. rewrite append_cons. cbn [match_bak].
    by rewrite Hc, (IH Hline).
Qed.

Lemma update_latest_filename (file_dict : list (string * string))
    (entry : string * string) :
  well_named entry ->
  update_latest file_dict (bak_filename entry) = update_entry file_dict entry.
Proof.
  intros Hwf. unfold update_latest. rewrite (match_bak_filename _ Hwf).
  by destruct entry.
Qed.

Lemma foldl_update_latest (entries : list (string * string))
    (file_dict : list (string * string)) :
  Forall well_named entries ->
  foldl update_latest file_dict (bak_filename <$> entries)
  = foldl update_entry file_dict entries.
Proof.
  intros Hall. revert file_dict.
  induction Hall as [|entry entries Hwf _ IH]; intros file_dict; [done|].
  cbn [fmap list_fmap foldl]. rewrite (update_latest_filename _ _ Hwf). apply IH.
Qed.

(** ** Keeping the latest backup of each name *)

Lemma ltb_le (a b : string) : String.ltb a b = true -> (a ≤ b)%string.
Proof.
  unfold String.le, String.leb, String.ltb. by destruct (String.compare a b).
Qed.

Lemma not_ltb_le (a b : string) : String.ltb a b = false -> (b ≤ a)%string.
Proof.
  unfold String.le, String.leb, String.ltb. rewrite (String.compare_antisym b a).
  by destruct (String.compare a b).
Qed.

Lemma latest_of_nil : latest_of [] [].
Proof. split; [apply NoDup_nil_2|]. split; [done|]. intros n d [=]. Qed.

Lemma latest_of_update (seen file_dict : list (string * string))
    (entry : string * string) :
  latest_of seen file_dict ->
  latest_of (seen ++ [entry]) (update_entry file_dict entry).
Proof.
  destruct entry as [n0 d0]. intros (Hnd & Hkeys & Hmax).
  assert (forall n d', (n, d') ∈ seen ++ [(n0, d0)] <->
                       (n, d') ∈ seen \/ (n = n0 /\ d' = d0)) as Hsnoc.
  { intros n d'. rewrite elem_of_app, list_elem_of_singleton. naive_solver. }
  assert (forall n, n ∈ (seen ++ [(n0, d0)]).*1 <-> n = n0 \/ n ∈ seen.*1) as Hnames.
  { intros n. rewrite fmap_app, elem_of_app. cbn. rewrite list_elem_of_singleton.
    naive_solver. }
  assert (forall d1,
    (forall d', (n0, d') ∈ seen -> (d' ≤ d1)%string) -> (d0 ≤ d1)%string ->
    (n0, d1) ∈ seen ++ [(n0, d0)] ->
    forall file_dict',
      NoDup (dict_keys file_dict') ->
      (forall n, n ∈ dict_keys file_dict' <-> n = n0 \/ n ∈ dict_keys file_dict) ->
      dict_get n0 file_dict' = Some d1 ->
      (forall n, n ≠ n0 -> dict_get n file_dict' = dict_get n file_dict) ->
      latest_of (seen ++ [(n0, d0)]) file_dict') as Hbuild.
  { intros d1 Hseen Hd0 Hin file_dict' Hnd' Hkeys' Hget Hother.
    split; [done|]. split.
    - intros n. rewrite Hkeys', Hnames, Hkeys. done.
    - intros n d Hn. destruct (decide (n = n0)) as [->|Hne].
      + rewrite Hget in Hn. injection Hn as <-. split; [done|].
        intros d' [Hd'|[_ ->]]%Hsnoc; auto.
      + rewrite (Hother n Hne) in Hn. destruct (Hmax n d Hn) as [Hin' Hle].
        split; [apply Hsnoc; by left|].
        intros d' [Hd'|[-> _]]%Hsnoc; [auto|done]. }
  unfold update_entry. cbn [fst snd].
  destruct (dict_get n0 file_dict) as [latest|] eqn:Hget.
  - destruct (Hmax n0 latest Hget) as [Hin Hle].
    destruct (String.ltb latest d0) eqn:Hlt.
    + apply (Hbuild d0).
      * intros d' Hd'. etrans; [by apply Hle|by apply ltb_le].
      * done.
      * apply Hsnoc. by right.
      * by apply dict_set_NoDup.
      * intros n. apply dict_keys_set_elem.
      * apply dict_get_set_eq.
      * intros n Hne. by apply dict_get_set_ne.
    + apply (Hbuild latest).
      * done.
      * by apply not_ltb_le.
      * apply Hsnoc. by left.
      * done.
      * intros n. split; [by right|]. intros [->|]; [|done].
        by eapply dict_get_Some_keys.
      * done.
      * done.
  - apply (Hbuild d0).
    + intros d' Hd'. exfalso. apply (dict_get_None_keys _ _ Hget), Hkeys.
      apply list_elem_of_fmap. by exists (n0, d').
    + done.
    + apply Hsnoc. by right.
    + by apply dict_set_NoDup.
    + intros n. apply dict_keys_set_elem.
    + apply dict_get_set_eq.
    + intros n Hne. by apply dict_get_set_ne.
Qed.

Lemma latest_of_foldl (entries seen file_dict : list (string * string)) :
  latest_of seen file_dict ->
  latest_of (seen ++ entries) (foldl update_entry file_dict entries).
Proof.
  revert seen file_dict. induction entries as [|entry entries IH];
    intros seen file_dict Hinv; cbn [foldl].
  - by rewrite app_nil_r.
  - rewrite (cons_middle entry seen entries), app_assoc.
    apply IH. by apply latest_of_update.
Qed.

Lemma get_latest_bak_files_entries (entries : list (string * string)) :
  Forall well_named entries ->
  get_latest_bak_files (bak_filename <$> entries)
  = bak_filename <$> foldl update_entry [] entries.
Proof.
  intros Hall. unfold get_latest_bak_files. by rewrite foldl_update_latest.
Qed.

(** Entries of one name under distinct keys: at most one. *)
Lemma same_name_once (n : string) (l : list (string * string)) :
  NoDup l.*1 -> Forall (fun e => e.1 = n) l ->
  l = [] \/ exists d, l = [(n, d)].
Proof.
  destruct l as [|[n1 d1] [|[n2 d2] l]]; [by left| |].
  - intros _ [Hn _]%Forall_cons. cbn in Hn. subst. right. by exists d1.
  - intros Hnd (Hn1 & [Hn2 _]%Forall_cons)%Forall_cons. cbn in *. subst.
    apply NoDup_cons in Hnd as [Hnin _]. exfalso. apply Hnin, list_elem_of_here.
Qed.

(** C3: for file names [<name>_<digits8>_<digits6>.bak], given by their
    names and stamps, [get_latest_bak_files] returns the file names of a
    list [kept] that has each name of the input exactly once, with a
    stamp of the input that no stamp of that name exceeds in
    lexicographic order; and what is kept for a name is what the files
    of that name alone would yield, whatever the other names are. *)
Theorem get_latest_bak_files_keeps_latest (entries : list (string * string)) :
  Forall well_named entries ->
  exists kept,
    get_latest_bak_files (bak_filename <$> entries) = bak_filename <$> kept /\
    NoDup kept.*1 /\
    (forall n, n ∈ kept.*1 <-> n ∈ entries.*1) /\
    (forall n d, (n, d) ∈ kept ->
       (n, d) ∈ entries /\ forall d', (n, d') ∈ entries -> (d' ≤ d)%string) /\
    (forall n,
       get_latest_bak_files (bak_filename <$> filter (has_name n) entries)
       = bak_filename <$> filter (has_name n) kept).
Proof.
  intros Hall.
  assert (forall l, latest_of l (foldl update_entry [] l)) as Hlatest.
  { intros l. apply (latest_of_foldl l [] []), latest_of_nil. }
  destruct (Hlatest entries) as (Hnd & Hkeys & Hmax).
  exists (foldl update_entry [] entries).
  split; [by apply get_latest_bak_files_entries|].
  split; [done|]. split; [done|]. split.
  { intros n d Hin. apply Hmax. by apply dict_get_elem_of. }
  intros n.
  set (mine := filter (has_name n) entries).
  set (kept := foldl update_entry [] entries) in *.
  rewrite get_latest_bak_files_entries
    by (apply Forall_forall; intros e [_ He]%list_elem_of_filter;
        by apply (proj1 (Forall_forall _ _) Hall)).
  f_equal.
  destruct (Hlatest mine) as (Hnd' & Hkeys' & Hmax').
  set (kept' := foldl update_entry [] mine) in *.
  assert (forall d, (n, d) ∈ kept' <-> (n, d) ∈ filter (has_name n) kept) as Hsame.
  { assert (forall d, (n, d) ∈ mine <-> (n, d) ∈ entries) as Hmine.
    { intros d. unfold mine. rewrite list_elem_of_filter. unfold has_name.
      naive_solver. }
    intros d. rewrite list_elem_of_filter. unfold has_name. cbn [fst].
    rewrite !dict_get_elem_of by done. split.
    - intros Hd. split; [done|].
      destruct (Hmax' n d Hd) as [Hin Hle].
      assert (n ∈ dict_keys kept) as [d1 Hd1]%dict_keys_get.
      { apply Hkeys. apply list_elem_of_fmap. exists (n, d). split; [done|].
        by apply Hmine. }
      destruct (Hmax n d1 Hd1) as [Hin1 Hle1]. rewrite Hd1. f_equal.
      apply (anti_symm String.le).
      + apply Hle. by apply Hmine.
      + apply Hle1. by apply Hmine.
    - intros [_ Hd].
      destruct (Hmax n d Hd) as [Hin Hle].
      assert (n ∈ dict_keys kept') as [d1 Hd1]%dict_keys_get.
      { apply Hkeys'. apply list_elem_of_fmap. exists (n, d). split; [done|].
        by apply Hmine. }
      destruct (Hmax' n d1 Hd1) as [Hin1 Hle1]. rewrite Hd1. f_equal.
      apply (anti_symm String.le).
      + apply Hle. by apply Hmine.
      + apply Hle1. by apply Hmine. }
  assert (Forall (fun e => e.1 = n) kept') as Hall'.
  { apply Forall_forall. intros [n1 d1] Hin. cbn.
    assert (n1 ∈ mine.*1) as ([n2 d2] & -> & [Hn _]%list_elem_of_filter)%list_elem_of_fmap.
    { apply Hkeys'. apply list_elem_of_fmap. by exists (n1, d1). }
    done. }
  assert (Forall (fun e => e.1 = n) (filter (has_name n) kept)) as Hallk.
  { apply Forall_forall. by intros e [He _]%list_elem_of_filter. }
  assert (NoDup (filter (has_name n) kept).*1) as Hndk.
  { eapply sublist_NoDup; [exact Hnd|]. apply fmap_sublist, sublist_filter. }
  destruct (same_name_once n kept' Hnd' Hall') as [E1|[d1 E1]];
    destruct (same_name_once n _ Hndk Hallk) as [E2|[d2 E2]];
    rewrite E1, E2; [done| | |].
  - exfalso. assert ((n, d2) ∈ kept') as Hin.
    { apply Hsame. rewrite E2. apply list_elem_of_here. }
    rewrite E1 in Hin. by apply not_elem_of_nil in Hin.
  - exfalso. assert ((n, d1) ∈ filter (has_name n) kept) as Hin.
    { apply Hsame. rewrite E1. apply list_elem_of_here. }
    rewrite E2 in Hin. by apply not_elem_of_nil in Hin.
  - assert ((n, d1) ∈ filter (has_name n) kept) as Hin.
    { apply Hsame. rewrite E1. apply list_elem_of_here. }
    rewrite E2 in Hin. apply list_elem_of_singleton in Hin. by rewrite Hin.
Qed.

Lemma get_latest_bak_files_keeps_latest_witness :
  Forall well_named sample_entries /\
  exists kept,
    get_latest_bak_files (bak_filename <$> sample_entries) = bak_filename <$> kept /\
    NoDup kept.*1 /\
    (forall n, n ∈ kept.*1 <-> n ∈ sample_entries.*1) /\
    (forall n d, (n, d) ∈ kept ->
       (n, d) ∈ sample_entries /\
       forall d', (n, d') ∈ sample_entries -> (d' ≤ d)%string) /\
    (forall n,
       get_latest_bak_files (bak_filename <$> filter (has_name n) sample_entries)
       = bak_filename <$> filter (has_name n) kept).
Proof.
  assert (Forall well_named sample_entries) as Hall.
  { repeat constructor. }
  split; [exact Hall|].
  exact (get_latest_bak_files_keeps_latest sample_entries Hall).
Defined.

Example get_latest_bak_files_sample :
  get_latest_bak_files
    ["db1_20230101_000000.bak"; "db1_20230615_120000.bak"; "db2_20230101_000000.bak"]
  = ["db1_20230615_120000.bak"; "db2_20230101_000000.bak"].
Proof. reflexivity. Qed.


(** * Further properties *)

(** ** Container names *)

Lemma span_not_hyphen_inv (s a r : string) :
  span_not_hyphen s = (a, r) ->
  s = a +:+ r /\ no_hyphen a = true /\ (r = "" \/ exists r', r = String "-" r').
Proof.
  revert a r. induction s as [|c s IH]; intros a r; cbn.
  - intros [= <- <-]. auto.
  - destruct (Ascii.eqb_spec c "-") as [->|Hne].
    + intros [= <- <-]. split; [done|]. split; [done|]. right. by eexists.
    + destruct (span_not_hyphen s) as [a' r'] eqn:Hs. intros [= <- <-].
      destruct (IH _ _ eq_refl) as (-> & Ha & Hr). split; [done|]. split; [|done].
      cbn. apply Ascii.eqb_neq in Hne. by rewrite Hne.
Qed.

Lemma span_not_hyphen_app (a r : string) :
  no_hyphen a = true -> span_not_hyphen (a +:+ String "-" r) = (a, String "-" r).
Proof.
  induction a as [|c a IH]; [done|]. cbn [no_hyphen].
  intros [Hc Ha]%andb_prop. apply negb_true_iff in Hc.
  rewrite append_cons. cbn [span_not_hyphen]. by rewrite Hc, (IH Ha).
Qed.

Lemma span_digits_inv (s d r : string) :
  span_digits s = (d, r) -> s = d +:+ r /\ all_digits d = true.
Proof.
  revert d r. induction s as [|c s IH]; intros d r; cbn -[Py.is_digit].
  - by intros [= <- <-].
  - destruct (Py.is_digit c) eqn:Hc.
    + destruct (span_digits s) as [d' r'] eqn:Hs. intros [= <- <-].
      destruct (IH _ _ eq_refl) as (-> & Hd). split; [done|].
      cbn -[Py.is_digit]. by rewrite Hc.
    + by intros [= <- <-].
Qed.

Lemma span_digits_end (d : string) :
  all_digits d = true ->
  span_digits d = (d, "") /\ span_digits (d +:+ Py.nl) = (d, Py.nl).
Proof.
  induction d as [|c d IH]; [done|]. cbn -[Py.is_digit].
  intros [Hc Hd]%andb_prop. destruct (IH Hd) as [H1 H2].
  rewrite append_cons. cbn -[Py.is_digit]. by rewrite Hc, H1, H2.
Qed.

Lemma search_container_name_iff_aux (s b : string) :
  search_container_name s = Some b <->
  exists a d,
    name_field a /\ name_field b /\ index_field d /\
    (s = compose_name a b d \/ s = compose_name a b d +:+ Py.nl).
Proof.
  unfold search_container_name, compose_name, name_field, index_field. split.
  - destruct (span_not_hyphen s) as [a r1] eqn:H1.
    apply span_not_hyphen_inv in H1 as (-> & Ha & Hr1).
    destruct a as [|ca a]; [done|]. destruct r1 as [|c1 r1]; [done|].
    destruct Hr1 as [[=]|[r1' [= -> ->]]].
    destruct (span_not_hyphen r1') as [b' r2] eqn:H2.
    apply span_not_hyphen_inv in H2 as (-> & Hb & Hr2).
    destruct b' as [|cb b']; [done|]. destruct r2 as [|c2 r2]; [done|].
    destruct Hr2 as [[=]|[r2' [= -> ->]]].
    unfold digits_then_end.
    destruct (span_digits r2') as [d r] eqn:H3.
    apply span_digits_inv in H3 as (-> & Hd).
    destruct (String.eqb_spec d "") as [->|Hne]; [done|]. cbn [negb andb].
    destruct (String.eqb_spec r "") as [->|Hr]; cbn [orb].
    + intros [= <-]. exists (String ca a), d. rewrite append_nil_r.
      repeat split; try done. left. by norm_str.
    + destruct (String.eqb_spec r Py.nl) as [->|]; [|done].
      intros [= <-]. exists (String ca a), d.
      repeat split; try done. right. by norm_str.
  - intros (a & d & [Hane Ha] & [Hbne Hb] & [Hdne Hd] & Hs).
    assert (span_not_hyphen s = (a, String "-" (b +:+ String "-" (
              if decide (s = a +:+ "-" +:+ b +:+ "-" +:+ d) then d else d +:+ Py.nl))))
      as ->.
    { destruct Hs as [-> | ->].
      - rewrite decide_True by done. norm_str. by apply span_not_hyphen_app.
      - rewrite decide_False.
        + norm_str. by apply span_not_hyphen_app.
        + intros H. apply (f_equal String.length) in H. revert H.
          repeat (rewrite length_append || cbn [String.length Py.nl Py.str1]). lia. }
    destruct a as [|ca a]; [done|].
    rewrite (span_not_hyphen_app b _ Hb).
    destruct b as [|cb b]; [done|].
    unfold digits_then_end. destruct (span_digits_end d Hd) as [E1 E2].
    apply String.eqb_neq in Hdne.
    destruct (decide _); [rewrite E1|rewrite E2]; by rewrite Hdne.
Qed.

(** X1: the container-name pattern accepts exactly the names
    [<a>-<b>-<d>], with [a] and [b] not empty and free of hyphens and
    [d] one or more digits, optionally followed by one line feed; the
    short name it yields is [b]. *)
Theorem search_container_name_iff (s b : string) :
  search_container_name s = Some b <->
  exists a d,
    name_field a /\ name_field b /\ index_field d /\
    (s = compose_name a b d \/ s = compose_name a b d +:+ Py.nl).
Proof. apply search_container_name_iff_aux. Qed.

(** ** What a resolved handler holds *)

Lemma ContainerHandler_init_inv (cls : HandlerClass) (c : Container) (h : Handler) :
  ContainerHandler_init cls c = Ok h ->
  exists short tag0 more_tags image tag fields,
    search_container_name (name c) = Some short /\
    image_tags c = tag0 :: more_tags /\
    Py.split ":" tag0 = image :: tag :: fields /\
    h = {| class := cls; container := c; container_name := Py.lower short;
           image_name := image; image_tag := tag; dockerfile_content := "";
           environment_variables := []; deploy := PNone |}.
Proof.
  unfold ContainerHandler_init.
  destruct (search_container_name (name c)) as [short|]; [|done].
  destruct (image_tags c) as [|tag0 more_tags]; [done|]. cbn.
  destruct (Py.split ":" tag0) as [|image [|tag fields]] eqn:Hsplit; cbn;
    [done..|].
  intros [= <-]. by exists short, tag0, more_tags, image, tag, fields.
Qed.

Lemma get_handler_inv (c : Container) (h : Handler) :
  HandlerFactory.get_handler c = Ok h ->
  exists h0,
    ContainerHandler_init (class h) c = Ok h0 /\
    HandlerFactory.handlers !! image_name h0 = Some (class h) /\
    container h = c /\ container_name h = container_name h0 /\
    image_name h = image_name h0 /\ image_tag h = image_tag h0 /\
    dockerfile_content h = "" /\
    match class h with
    | IgnitionHandler =>
        environment_variables h = ["ACCEPT_IGNITION_EULA=Y"] /\ deploy h = PNone
    | ModbusHandler => environment_variables h = [] /\ get_deploy c = Ok (deploy h)
    | MSSQLHandler =>
        environment_variables h = "ACCEPT_EULA=Y" :: sa_password_items (Env c) /\
        deploy h = PNone
    end.
Proof.
  unfold HandlerFactory.get_handler.
  destruct (image_tags c) as [|tag0 more_tags] eqn:Htags; [done|]. cbn.
  destruct (Py.split ":" tag0) as [|image fields] eqn:Hsplit; [done|]. cbn.
  destruct (HandlerFactory.handlers !! image) as [cls|] eqn:Hreg; [|done].
  assert (forall h0, ContainerHandler_init cls c = Ok h0 ->
            image_name h0 = image /\ container h0 = c /\ class h0 = cls /\
            dockerfile_content h0 = "" /\ environment_variables h0 = [] /\
            deploy h0 = PNone) as Hbase.
  { intros h0 (short & t & m & i & tg & f & _ & Ht & Hs & ->)%ContainerHandler_init_inv.
    rewrite Htags in Ht. injection Ht as <- <-. rewrite Hsplit in Hs.
    by injection Hs as <- _. }
  destruct cls; cbn [HandlerFactory.construct].
  - unfold IgnitionHandler_init.
    destruct (ContainerHandler_init IgnitionHandler c) as [h0|] eqn:H0; [|done].
    cbn. intros [= <-]. destruct (Hbase h0 eq_refl) as (Hi & Hc & Hcls & Hd & He & Hdep).
    exists h0. cbn. by rewrite Hcls, Hi.
  - unfold ModbusHandler_init.
    destruct (ContainerHandler_init ModbusHandler c) as [h0|] eqn:H0; [|done].
    destruct (Hbase h0 eq_refl) as (Hi & Hc & Hcls & Hd & He & Hdep).
    cbn. rewrite Hc. destruct (get_deploy c) as [d|] eqn:Hdeploy; [|done].
    cbn. intros [= <-]. exists h0. cbn. by rewrite Hcls, Hi.
  - unfold MSSQLHandler_init, get_sa_password.
    destruct (ContainerHandler_init MSSQLHandler c) as [h0|] eqn:H0; [|done].
    destruct (Hbase h0 eq_refl) as (Hi & Hc & Hcls & Hd & He & Hdep).
    cbn. rewrite Hc, get_sa_password_loop_spec. cbn. intros [= <-].
    exists h0. cbn. by rewrite Hcls, Hi.
Qed.

(** X2: a handler that [get_handler] returns is bound to the container
    it was asked for, its class is the one registered for the
    container's base image name, which it stores as its image name, and
    no Dockerfile text is stored yet. *)
Theorem get_handler_sound (c : Container) (h : Handler) :
  HandlerFactory.get_handler c = Ok h ->
  container h = c /\
  base_image_name c = Some (image_name h) /\
  HandlerFactory.handlers !! image_name h = Some (class h) /\
  dockerfile_content h = "".
Proof.
  intros (h0 & Hinit & Hreg & Hc & _ & Hi & _ & Hd & _)%get_handler_inv.
  apply ContainerHandler_init_inv in Hinit
    as (short & tag0 & more & image & tag & fields & _ & Htags & Hsplit & ->).
  cbn in *. unfold base_image_name. by rewrite Htags, Hsplit, Hi.
Qed.

Lemma get_handler_sound_witness :
  exists h, HandlerFactory.get_handler database = Ok h /\
    container h = database /\
    base_image_name database = Some (image_name h) /\
    HandlerFactory.handlers !! image_name h = Some (class h) /\
    dockerfile_content h = "".
Proof.
  eexists. split; [reflexivity|].
  apply (get_handler_sound database). reflexivity.
Defined.

Lemma resolved_short_name_aux (c : Container) (h : Handler) :
  HandlerFactory.get_handler c = Ok h ->
  exists a b d,
    name_field a /\ name_field b /\ index_field d /\
    (name c = compose_name a b d \/ name c = compose_name a b d +:+ Py.nl) /\
    container_name h = Py.lower b.
Proof.
  intros (h0 & Hinit & _ & _ & Hn & _)%get_handler_inv.
  apply ContainerHandler_init_inv in Hinit
    as (short & tag0 & more & image & tag & fields & Hname & _ & _ & Hh0).
  apply search_container_name_iff_aux in Hname as (a & d & Ha & Hb & Hd & Hs).
  exists a, short, d. by rewrite Hn, Hh0.
Qed.

(** X3: the short name of a resolved handler is the lowercased middle
    field of the container's name, which therefore has the form
    [<a>-<b>-<d>] (possibly with a final line feed). *)
Theorem resolved_short_name (c : Container) (h : Handler) :
  HandlerFactory.get_handler c = Ok h ->
  exists a b d,
    name_field a /\ name_field b /\ index_field d /\
    (name c = compose_name a b d \/ name c = compose_name a b d +:+ Py.nl) /\
    container_name h = Py.lower b.
Proof. apply resolved_short_name_aux. Qed.

Lemma resolved_short_name_witness :
  exists h, HandlerFactory.get_handler database = Ok h /\
  exists a b d,
    name_field a /\ name_field b /\ index_field d /\
    (name database = compose_name a b d \/ name database = compose_name a b d +:+ Py.nl) /\
    container_name h = Py.lower b.
Proof.
  eexists. split; [reflexivity|].
  apply (resolved_short_name database). reflexivity.
Defined.

(** X4: for a registered image, a container whose name is not of the
    form the pattern accepts makes [get_handler] raise
    [AttributeError]. *)
Theorem get_handler_bad_name (c : Container) (image : string) (cls : HandlerClass) :
  base_image_name c = Some image ->
  HandlerFactory.handlers !! image = Some cls ->
  search_container_name (name c) = None ->
  HandlerFactory.get_handler c = Raise AttributeError.
Proof.
  intros Hbase Hreg Hname. rewrite (get_handler_lookup c image Hbase), Hreg.
  destruct cls; cbn;
    unfold IgnitionHandler_init, ModbusHandler_init, MSSQLHandler_init,
      ContainerHandler_init; by rewrite Hname.
Qed.

Lemma join_split (sep : ascii) (s : string) :
  Py.join (Py.str1 sep) (Py.split sep s) = s.
Proof.
  induction s as [|c s IH]; [done|]. cbn [Py.split].
  destruct (Ascii.eqb_spec c sep) as [->|Hne].
  - destruct (Py.split sep s) as [|x l] eqn:E; [by apply split_not_empty in E|].
    cbn [Py.join]. cbn [Py.join] in IH. by rewrite IH.
  - destruct (Py.split sep s) as [|x l] eqn:E; [by apply split_not_empty in E|].
    cbn [Py.join] in *. destruct l as [|y l].
    + by rewrite IH.
    + rewrite append_cons. by rewrite IH.
Qed.

Lemma split_no_colon (s : string) :
  Forall (fun field => no_colon field = true) (Py.split ":" s).
Proof.
  induction s as [|c s IH]; [by repeat constructor|]. cbn [Py.split].
  destruct (Ascii.eqb c ":") eqn:Hc.
  - by constructor.
  - destruct (Py.split ":" s) as [|x l] eqn:E; [by apply split_not_empty in E|].
    apply Forall_cons in IH as [Hx Hl]. constructor; [|done].
    cbn [no_colon]. by rewrite Hc, Hx.
Qed.

(** X5: the image name and the image tag of a resolved handler are the
    first two colon-separated fields of the container's first image
    tag: that tag is these two and the remaining fields joined by
    colons, and no field has a colon in it. *)
Theorem resolved_image_fields (c : Container) (h : Handler) :
  HandlerFactory.get_handler c = Ok h ->
  exists tag0 more_tags fields,
    image_tags c = tag0 :: more_tags /\
    Py.join ":" (image_name h :: image_tag h :: fields) = tag0 /\
    Forall (fun field => no_colon field = true) (image_name h :: image_tag h :: fields).
Proof.
  intros (h0 & Hinit & _ & _ & _ & Hi & Ht & _)%get_handler_inv.
  apply ContainerHandler_init_inv in Hinit
    as (short & tag0 & more & image & tag & fields & _ & Htags & Hsplit & ->).
  exists tag0, more, fields. split; [done|].
  rewrite Hi, Ht. cbn [image_name image_tag]. rewrite <- Hsplit.
  split; [apply join_split|apply split_no_colon].
Qed.

Lemma resolved_image_fields_witness :
  exists h, HandlerFactory.get_handler database = Ok h /\
  exists tag0 more_tags fields,
    image_tags database = tag0 :: more_tags /\
    Py.join ":" (image_name h :: image_tag h :: fields) = tag0 /\
    Forall (fun field => no_colon field = true) (image_name h :: image_tag h :: fields).
Proof.
  eexists. split; [reflexivity|].
  apply (resolved_image_fields database). reflexivity.
Defined.

Lemma get_handler_bad_name_witness :
  base_image_name hyphenated_service = Some "kcollins/mssql" /\
  HandlerFactory.handlers !! "kcollins/mssql" = Some MSSQLHandler /\
  search_container_name (name hyphenated_service) = None /\
  HandlerFactory.get_handler hyphenated_service = Raise AttributeError.
Proof.
  split; [reflexivity|]. split; [reflexivity|]. split; [reflexivity|].
  apply (get_handler_bad_name hyphenated_service "kcollins/mssql" MSSQLHandler);
    reflexivity.
Defined.

(** X6: what a resolved handler carries depends on its class alone: the
    gateway handler the EULA flag and no limit block, the protocol
    gateway handler no variable and the limit block of the container's
    CPU quota, the database handler the EULA flag followed by the
    container's admin-password variables and no limit block. *)
Theorem resolved_metadata (c : Container) (h : Handler) :
  HandlerFactory.get_handler c = Ok h ->
  match class h with
  | IgnitionHandler =>
      environment_variables h = ["ACCEPT_IGNITION_EULA=Y"] /\ deploy h = PNone
  | ModbusHandler =>
      environment_variables h = [] /\
      exists cpus, nano_cpus_to_cpus (default 0 (NanoCpus c)) = Ok cpus /\
                   deploy h = cpu_limit_block cpus
  | MSSQLHandler =>
      environment_variables h = "ACCEPT_EULA=Y" :: sa_password_items (Env c) /\
      deploy h = PNone
  end.
Proof.
  intros (h0 & _ & _ & _ & _ & _ & _ & _ & Hmeta)%get_handler_inv.
  destruct (class h); [done| |done]. destruct Hmeta as [Henv Hdeploy].
  split; [done|]. unfold get_deploy in Hdeploy.
  destruct (nano_cpus_to_cpus (default 0 (NanoCpus c))) as [cpus|]; [|done].
  exists cpus. split; [done|]. cbn in Hdeploy. by injection Hdeploy as <-.
Qed.

Lemma resolved_metadata_witness :
  exists h, HandlerFactory.get_handler two_port_publisher = Ok h /\
  match class h with
  | IgnitionHandler =>
      environment_variables h = ["ACCEPT_IGNITION_EULA=Y"] /\ deploy h = PNone
  | ModbusHandler =>
      environment_variables h = [] /\
      exists cpus, nano_cpus_to_cpus (default 0 (NanoCpus two_port_publisher)) = Ok cpus /\
                   deploy h = cpu_limit_block cpus
  | MSSQLHandler =>
      environment_variables h
        = "ACCEPT_EULA=Y" :: sa_password_items (Env two_port_publisher) /\
      deploy h = PNone
  end.
Proof.
  eexists. split; [reflexivity|].
  apply (resolved_metadata two_port_publisher). reflexivity.
Defined.

(** ** Resolving the handlers of a project *)

Lemma resolve_all_outcome (containers : list Container) (acc : list Handler) (w : World) :
  BuildManager.resolve_all containers acc w
  = (Ok (acc ++ omap resolved containers), record_all (skipped containers) w).
Proof.
  revert acc w. induction containers as [|c rest IH]; intros acc w.
  - cbn. by rewrite app_nil_r.
  - cbn [BuildManager.resolve_all omap list_omap skipped flat_map]. unfold resolved at 1.
    destruct (HandlerFactory.get_handler c) as [h|e].
    + rewrite IH. cbn [app]. by rewrite <- app_assoc.
    + unfold mbind, M_bind. rewrite print_record, IH. rewrite record_all_app. done.
Qed.

Lemma get_handlers_outcome_aux (project_name : string) (containers : list Container)
    (w : World) :
  BuildManager.get_handlers project_name containers w =
    match containers with
    | [] => (Raise (NoContainersFound ("No running containers found for project '"
                                       +:+ project_name +:+ "'.")), w)
    | _ => (Ok (omap resolved containers), record_all (skipped containers) w)
    end.
Proof.
  destruct containers as [|c rest]; [done|].
  unfold BuildManager.get_handlers. apply (resolve_all_outcome (c :: rest) []).
Qed.

(** X7: [get_handlers] raises only when the project has no container.
    Otherwise it returns, in the order of the containers, the handlers
    of those [get_handler] resolves, and prints one line for each
    container it skips, whatever exception [get_handler] raised for
    it. *)
Theorem get_handlers_outcome (project_name : string) (containers : list Container)
    (w : World) :
  BuildManager.get_handlers project_name containers w =
    match containers with
    | [] => (Raise (NoContainersFound ("No running containers found for project '"
                                       +:+ project_name +:+ "'.")), w)
    | _ => (Ok (omap resolved containers), record_all (skipped containers) w)
    end.
Proof. apply get_handlers_outcome_aux. Qed.

Example get_handlers_mixed_project :
  let r := BuildManager.get_handlers "proj" mixed_project empty_world in
  match r.1 with Ok hs => container_name <$> hs | Raise _ => [] end = ["gateway"; "db"] /\
  events r.2 =
    [ Print "No handler found for proj-web-1, skipping. Error: No handler found for image: nginx";
      Print ("No handler found for proj-my-service-1, skipping. Error: "
             +:+ "'NoneType' object has no attribute 'group'");
      Print "No handler found for proj-old-1, skipping. Error: list index out of range" ].
Proof. split; reflexivity. Qed.

(** ** Deduplicating arbitrary listings *)

Lemma stamp_bak_is_stamp (s stamp rest : string) :
  stamp_bak s = Some (stamp, rest) -> is_stamp stamp = true.
Proof.
  unfold stamp_bak.
  destruct (expect "_" s) as [r0|]; [|done]. cbn [mbind option_bind].
  destruct (take_digits 8 r0) as [[d8 r1]|] eqn:H8; [|done]. cbn [mbind option_bind].
  destruct (expect "_" r1) as [r2|]; [|done]. cbn [mbind option_bind].
  destruct (take_digits 6 r2) as [[d6 r3]|] eqn:H6; [|done]. cbn [mbind option_bind].
  destruct (expect ".bak" r3) as [r4|]; [|done]. cbn [mbind option_bind].
  intros [= <- <-].
  apply take_digits_split in H8 as (_ & _ & H8).
  apply take_digits_split in H6 as (_ & _ & H6).
  unfold is_stamp. rewrite H8. norm_str.
  specialize (H6 ""). rewrite append_nil_r in H6. by rewrite H6.
Qed.

(** What the pattern reads is a well-named entry, and the file name
    begins with the file name of that entry. *)
Lemma match_bak_inv (file : string) (entry : string * string) :
  match_bak file = Some entry ->
  well_named entry /\ exists rest, file = bak_filename entry +:+ rest.
Proof.
  revert entry. induction file as [|c file IH]; intros [n d].
  - cbn. done.
  - cbn [match_bak].
    assert (stamp_bak (String c file) ≫= (fun '(date_str, _) => Some ("", date_str))
            = Some (n, d) ->
            well_named (n, d) /\
            exists rest, String c file = bak_filename (n, d) +:+ rest) as Hhere.
    { destruct (stamp_bak (String c file)) as [[stamp rest]|] eqn:E; [|done].
      cbn. intros [= <- <-]. split.
      - split; [done|]. by eapply stamp_bak_is_stamp.
      - exists rest. apply stamp_bak_inv in E as [-> _].
        unfold bak_filename. cbn [fst snd]. by norm_str. }
    destruct (Ascii.eqb c Py.LF) eqn:Hc; [done|].
    destruct (match_bak file) as [[n' d']|]; [|done].
    intros [= <- <-]. destruct (IH _ eq_refl) as ([Hline Hstamp] & rest & ->).
    split.
    + split; [|done]. cbn. by rewrite Hc.
    + exists rest. unfold bak_filename. cbn [fst snd]. by norm_str.
Qed.

Lemma foldl_update_latest_omap (files : list string) (file_dict : list (string * string)) :
  foldl update_latest file_dict files
  = foldl update_entry file_dict (omap match_bak files).
Proof.
  revert file_dict. induction files as [|file files IH]; intros file_dict; [done|].
  cbn [foldl omap list_omap]. unfold update_latest at 2.
  destruct (match_bak file) as [[n d]|]; cbn [foldl]; apply IH.
Qed.

Lemma dict_set_absent {V : Type} (d : list (string * V)) (k : string) (v : V) :
  dict_get k d = None -> dict_set k v d = d ++ [(k, v)].
Proof.
  induction d as [|[k' v'] d IH]; cbn; [done|].
  destruct (String.eqb k k'); [done|]. intros H. by rewrite IH.
Qed.

(** Entries of distinct names are all kept, as they come. *)
Lemma foldl_update_entry_distinct (entries acc : list (string * string)) :
  NoDup (acc ++ entries).*1 -> foldl update_entry acc entries = acc ++ entries.
Proof.
  revert acc. induction entries as [|[n d] entries IH]; intros acc Hnd.
  - by rewrite app_nil_r.
  - cbn [foldl]. unfold update_entry at 2. cbn [fst snd].
    assert (dict_get n acc = None) as Hnone.
    { destruct (dict_get n acc) eqn:E; [|done]. exfalso.
      apply dict_get_Some_keys in E. rewrite fmap_app in Hnd.
      apply NoDup_app in Hnd as (_ & Hdisj & _).
      apply (Hdisj n E). cbn. apply list_elem_of_here. }
    rewrite Hnone, (dict_set_absent _ _ _ Hnone), IH.
    + by rewrite <- app_assoc.
    + by rewrite <- app_assoc.
Qed.

Lemma kept_entries (files : list string) :
  let kept := foldl update_entry [] (omap match_bak files) in
  get_latest_bak_files files = bak_filename <$> kept /\
  NoDup kept.*1 /\
  Forall well_named kept /\
  forall entry, entry ∈ kept -> exists file, file ∈ files /\ match_bak file = Some entry.
Proof.
  intros kept.
  destruct (latest_of_foldl (omap match_bak files) [] [] latest_of_nil)
    as (Hnd & Hkeys & Hmax). cbn [app] in *. fold kept in Hnd, Hkeys, Hmax.
  assert (forall entry, entry ∈ kept ->
            exists file, file ∈ files /\ match_bak file = Some entry) as Horigin.
  { intros [n d] Hin. apply dict_get_elem_of in Hin; [|done].
    destruct (Hmax n d Hin) as [Hseen _].
    apply list_elem_of_omap in Hseen as (file & Hfile & Hm). by exists file. }
  split; [|split; [done|split; [|done]]].
  - unfold get_latest_bak_files. by rewrite foldl_update_latest_omap.
  - apply Forall_forall. intros entry (file & _ & Hm)%Horigin.
    by apply match_bak_inv in Hm as [? _].
Qed.

(** X8: whatever the listing, the paths [get_latest_bak_files] returns
    are pairwise distinct, and each is the file name
    [<name>_<digits8>_<digits6>.bak] of a name and stamp that the
    pattern reads at the start of some path of the listing. *)
Theorem get_latest_bak_files_output (files : list string) :
  NoDup (get_latest_bak_files files) /\
  forall path, path ∈ get_latest_bak_files files ->
    exists entry file,
      path = bak_filename entry /\ well_named entry /\
      file ∈ files /\ match_bak file = Some entry.
Proof.
  destruct (kept_entries files) as (-> & Hnd & Hwf & Horigin). split.
  - apply NoDup_fmap_2_strong; [|by eapply NoDup_fmap_1].
    intros e1 e2 H1 H2 Heq.
    assert (Some e1 = Some e2) as [= ->]; [|done].
    rewrite <- (match_bak_filename e1), <- (match_bak_filename e2), Heq; [done|..];
      by eapply (proj1 (Forall_forall _ _) Hwf).
  - intros path (entry & -> & Hin)%list_elem_of_fmap.
    destruct (Horigin entry Hin) as (file & Hfile & Hm).
    exists entry, file. repeat split; try done;
      by apply (proj1 (Forall_forall _ _) Hwf entry Hin).
Qed.

(** X9: deduplicating is idempotent: applied to its own result,
    [get_latest_bak_files] returns it unchanged. *)
Theorem get_latest_bak_files_idempotent (files : list string) :
  get_latest_bak_files (get_latest_bak_files files) = get_latest_bak_files files.
Proof.
  destruct (kept_entries files) as (-> & Hnd & Hwf & _).
  rewrite (get_latest_bak_files_entries _ Hwf). f_equal.
  by apply (foldl_update_entry_distinct _ []).
Qed.

(** X10: paths that the pattern does not read have no effect on the
    result: the listing and its recognised paths alone give the same
    files. *)
Theorem get_latest_bak_files_ignores_others (files : list string) :
  get_latest_bak_files files = get_latest_bak_files (filter recognised files).
Proof.
  unfold get_latest_bak_files. rewrite !foldl_update_latest_omap.
  do 2 f_equal. induction files as [|file files IH]; [done|].
  rewrite filter_cons. cbn [omap list_omap].
  destruct (decide (recognised file)) as [[entry E]|Hno].
  - cbn [omap list_omap]. by rewrite E, IH.
  - destruct (match_bak file) as [entry|] eqn:E; [|done].
    exfalso. apply Hno. unfold recognised. rewrite E. by eexists.
Qed.

(** The pattern is not anchored at the end: a path with text after
    [.bak] is returned without that text. *)
Example get_latest_bak_files_mixed_listing :
  get_latest_bak_files mixed_listing
  = ["/backups/db1_20230615_120000.bak"; "/backups/db2_20230101_000000.bak"].
Proof. reflexivity. Qed.

(** ** The Dockerfile of the database handler, for any listing *)

Lemma append_eq_length (a b x y : string) :
  String.length a = String.length b -> a +:+ x = b +:+ y -> a = b /\ x = y.
Proof.
  revert b. induction a as [|c a IH]; intros [|c' b] Hlen; try done.
  rewrite !append_cons. intros [= -> H]. cbn in Hlen.
  destruct (IH b) as [-> ->]; [lia|done|done].
Qed.

(** The anchored pattern reads the file name of a well-named entry as
    the name of that entry. *)
Lemma match_bak_anchored_filename (entry : string * string) :
  well_named entry -> match_bak_anchored (bak_filename entry) = Some entry.1.
Proof.
  destruct entry as [n d]. unfold well_named, bak_filename. cbn [fst snd].
  intros [Hline Hstamp].
  destruct (stamp_bak_of_stamp d "" Hstamp) as [Hlen Hread].
  revert Hread. norm_str. intros Hread.
  induction n as [|c n IH].
  - norm_str. cbn [match_bak_anchored]. by rewrite Hread.
  - cbn [one_line] in Hline. apply andb_prop in Hline as [Hc Hline].
    apply negb_true_iff in Hc. rewrite append_cons.
    cbn [match_bak_anchored]. rewrite Hc, (IH Hline). cbn [fmap option_fmap option_map].
    destruct (stamp_bak (String c (n +:+ String "_" (d +:+ ".bak"))))
      as [[stamp r]|] eqn:E; [|done].
    apply stamp_bak_inv in E as [E Hl].
    assert (String.length r = S (String.length n)) as Hr.
    { apply (f_equal String.length) in E. revert E.
      repeat (rewrite length_append || cbn [String.length]). lia. }
    assert (r <> "" /\ r <> Py.nl) as [H1 H2].
    { split; [by intros ->|]. intros ->. cbn in Hr. destruct n as [|]; [|done].
      revert E. norm_str. intros E.
      assert (String c (String "_" d) +:+ ".bak"
              = String "_" (stamp +:+ ".") +:+ "bak" +:+ Py.nl) as E'.
      { revert E. unfold Py.nl, Py.str1. by norm_str. }
      apply append_eq_length in E' as [_ [=]].
      repeat (rewrite length_append || cbn [String.length]). lia. }
    apply String.eqb_neq in H1, H2. by rewrite H1, H2.
Qed.

Lemma rfind_from_no_slash (s : string) (i last : Z) :
  no_slash s = true -> Py.rfind_from "/" s i last = last.
Proof.
  revert i last. induction s as [|c s IH]; intros i last; [done|].
  cbn [no_slash Py.rfind_from]. intros [Hc Hs]%andb_prop.
  apply negb_true_iff in Hc. rewrite Hc. by apply IH.
Qed.

Lemma os_path_basename_no_slash (s : string) :
  no_slash s = true -> Py.os_path_basename s = s.
Proof.
  intros H. unfold Py.os_path_basename, Py.rfind.
  by rewrite (rfind_from_no_slash s 0 (-1) H).
Qed.

(** X11: when the build folder lists backups only, each under the file
    name [<name>_<digits8>_<digits6>.bak] of a name without slash, the
    Dockerfile has for each of them, in the order of the listing, the
    COPY line that renames it to [<name>.bak] and the chown line of
    that name: the pattern of [create_dockerfile] reads the names that
    the pattern of [get_latest_bak_files] reads. *)
Theorem dockerfile_lines_of_backups (entries : list (string * string)) :
  Forall well_named entries ->
  Forall (fun entry => no_slash (bak_filename entry) = true) entries ->
  Forall (fun entry => match_bak (bak_filename entry) = Some entry) entries /\
  copy_lines (bak_filename <$> entries)
    = (fun entry => copy_line (bak_filename entry) entry.1) <$> entries /\
  chown_lines (bak_filename <$> entries)
    = (fun entry => "RUN chown mssql /docker-entrypoint-initdb.d/" +:+ entry.1 +:+ ".bak")
      <$> entries.
Proof.
  intros Hwf Hslash.
  split; [by eapply Forall_impl; [exact Hwf|apply match_bak_filename]|].
  set (group1 := fun file =>
         default "" (match_bak_anchored (Py.os_path_basename file))).
  assert (forall entry, entry ∈ entries -> group1 (bak_filename entry) = entry.1) as Hg.
  { intros entry Hin. unfold group1.
    rewrite os_path_basename_no_slash
      by (by apply (proj1 (Forall_forall _ _) Hslash)).
    rewrite match_bak_anchored_filename; [done|].
    by apply (proj1 (Forall_forall _ _) Hwf). }
  destruct (copy_lines_all_backups (bak_filename <$> entries) group1) as [-> ->].
  { apply Forall_fmap, Forall_forall. intros entry Hin. cbn.
    rewrite (Hg entry Hin).
    rewrite os_path_basename_no_slash
      by (by apply (proj1 (Forall_forall _ _) Hslash)).
    apply match_bak_anchored_filename.
    by apply (proj1 (Forall_forall _ _) Hwf). }
  rewrite <- !list_fmap_compose.
  split; apply Forall_fmap_ext_1, Forall_forall; intros entry Hin; cbn;
    by rewrite (Hg entry Hin).
Qed.

Lemma dockerfile_lines_of_backups_witness :
  Forall well_named sample_entries /\
  Forall (fun entry => no_slash (bak_filename entry) = true) sample_entries /\
  copy_lines (bak_filename <$> sample_entries)
    = (fun entry => copy_line (bak_filename entry) entry.1) <$> sample_entries.
Proof.
  assert (Forall well_named sample_entries) as Hwf by (by repeat constructor).
  assert (Forall (fun entry => no_slash (bak_filename entry) = true) sample_entries)
    as Hslash by (by repeat constructor).
  split; [exact Hwf|]. split; [exact Hslash|].
  exact (proj1 (proj2 (dockerfile_lines_of_backups sample_entries Hwf Hslash))).
Defined.

Lemma zip_lookup {A B : Type} (a : list A) (b : list B) (i : nat) (x : A) (y : B) :
  a !! i = Some x -> b !! i = Some y -> Py.zip a b !! i = Some (x, y).
Proof.
  revert b i. induction a as [|x' a IH]; intros [|y' b] [|i]; cbn; try done.
  - by intros [= ->] [= ->].
  - apply IH.
Qed.

Lemma zip_length {A B : Type} (a : list A) (b : list B) :
  (length b <= length a)%nat -> length (Py.zip a b) = length b.
Proof.
  revert b. induction a as [|x a IH]; intros [|y b]; cbn; try done; try lia.
  intros H. rewrite IH; lia.
Qed.

Lemma shortened_filenames_length (bak_files : list string) :
  (length (shortened_filenames bak_files) <= length bak_files)%nat.
Proof.
  unfold shortened_filenames. induction bak_files as [|file l IH]; cbn; [done|].
  destruct (match_bak_anchored _); cbn; lia.
Qed.

(** X12: whatever the listing of the build folder, there are as many
    COPY lines as chown lines, and line [i] copies entry [i] of the
    whole listing to the [i]-th shortened backup name. *)
Theorem copy_lines_pairing (bak_files : list string) :
  length (copy_lines bak_files) = length (chown_lines bak_files) /\
  forall i file shortened_filename,
    bak_files !! i = Some file ->
    shortened_filenames bak_files !! i = Some shortened_filename ->
    copy_lines bak_files !! i
    = Some ("COPY /" +:+ file +:+ " /docker-entrypoint-initdb.d/" +:+ shortened_filename).
Proof.
  unfold copy_lines, chown_lines. split.
  - rewrite !length_fmap. apply zip_length, shortened_filenames_length.
  - intros i file short Hfile Hshort. rewrite list_lookup_fmap.
    by rewrite (zip_lookup _ _ _ _ _ Hfile Hshort).
Qed.

(** X13: when no name of the listing is a backup name, and so for an
    empty build folder, the Dockerfile has no COPY and no chown line:
    it is the skeleton with the image tag. *)
Theorem dockerfile_without_backups (tag : string) (bak_files : list string) :
  Forall (fun file => ~ is_backup_name file) bak_files ->
  MSSQL_dockerfile_text tag bak_files = MSSQL_dockerfile_skeleton tag.
Proof.
  intros Hall.
  assert (shortened_filenames bak_files = []) as Hshort.
  { unfold shortened_filenames. induction Hall as [|file l Hfile _ IH]; [done|].
    cbn [flat_map]. destruct (match_bak_anchored _) eqn:E.
    - exfalso. apply Hfile. unfold is_backup_name. rewrite E. by eexists.
    - done. }
  unfold MSSQL_dockerfile_text, copy_lines, chown_lines. rewrite Hshort.
  assert (Py.zip bak_files ([] : list string) = []) as -> by (by destruct bak_files).
  unfold MSSQL_dockerfile_skeleton, lines. cbn [fmap list_fmap Py.join]. by norm_str.
Qed.

Lemma dockerfile_without_backups_witness :
  Forall (fun file => ~ is_backup_name file) ["dockerfile"; "notes.txt"] /\
  MSSQL_dockerfile_text "2019" ["dockerfile"; "notes.txt"]
  = MSSQL_dockerfile_skeleton "2019".
Proof.
  assert (Forall (fun file => ~ is_backup_name file) ["dockerfile"; "notes.txt"]) as Hall.
  { repeat constructor; by intros [? [=]]. }
  split; [exact Hall|].
  exact (dockerfile_without_backups "2019" ["dockerfile"; "notes.txt"] Hall).
Defined.

(** ** Building images *)

Lemma build_image_outcome (host : Host) (dockerfile_path image_name tag : string)
    (w : World) :
  exists outcome,
    build_image host dockerfile_path image_name tag w
    = (Ok tt,
       record_all [ Print ("Building image from dockerfile at location: "
                           +:+ dockerfile_path);
                    Print outcome ] w).
Proof.
  unfold build_image, mbind, M_bind. rewrite print_record. cbv beta iota.
  destruct (images_build host _ dockerfile_path (build_tag image_name tag));
    rewrite print_record; by eexists.
Qed.

(** X14: [build_image] never raises and writes no file: whatever the
    engine answers, a build error included, it prints the line that
    announces the build and one line with the outcome. *)
Theorem build_image_never_raises (host : Host) (dockerfile_path image_name tag : string)
    (w : World) :
  exists outcome,
    build_image host dockerfile_path image_name tag w
    = (Ok tt,
       record_all [ Print ("Building image from dockerfile at location: "
                           +:+ dockerfile_path);
                    Print outcome ] w).
Proof. apply build_image_outcome. Qed.

Lemma build_image_fs (host : Host) (dockerfile_path image_name tag : string) (w : World) :
  exists w', build_image host dockerfile_path image_name tag w = (Ok tt, w') /\
             fs w' = fs w.
Proof.
  destruct (build_image_outcome host dockerfile_path image_name tag w) as [o ->].
  by eexists.
Qed.

(** X15: the image reference of a handler's compose entry is the tag
    under which its derived image is built: [create_derived_image]
    prints the line that announces the build and then what the engine
    answers to the build of the handler's folder under that very
    reference, with the local files as they are; it never raises. *)
Theorem service_image_is_built_tag (host : Host) (h : Handler)
    (folder image_name reference : string) (w : World) :
  dict_get "image" (service_entry image_name h) = Some (PStr reference) ->
  create_derived_image host h folder image_name w
  = (Ok tt,
     record_all [ Print ("Building image from dockerfile at location: " +:+ folder);
                  Print (build_report (images_build host (fs w) folder reference)) ] w).
Proof.
  cbn. intros [= <-].
  unfold create_derived_image, build_image, mbind, M_bind. rewrite print_record.
  cbv beta iota. unfold build_tag. cbn [fs record].
  by destruct (images_build host (fs w) folder _); rewrite print_record.
Qed.

Lemma service_image_is_built_tag_witness :
  dict_get "image" (service_entry "stack" plc_handler) = Some (PStr "qpadgham/stack:plc") /\
  create_derived_image picky_host plc_handler "out/plc" "stack" empty_world
  = (Ok tt,
     record_all
       [ Print ("Building image from dockerfile at location: " +:+ "out/plc");
         Print (build_report
                  (images_build picky_host (fs empty_world) "out/plc" "qpadgham/stack:plc")) ]
       empty_world).
Proof.
  split; [reflexivity|].
  apply (service_image_is_built_tag picky_host plc_handler "out/plc" "stack"
           "qpadgham/stack:plc"). reflexivity.
Defined.

Example plc_handler_is_resolved : resolved plc = Some plc_handler.
Proof. reflexivity. Qed.

(** ** Rendering and saving Dockerfiles *)

Lemma registry_key (image : string) (cls : HandlerClass) :
  HandlerFactory.handlers !! image = Some cls -> image = registered_image cls.
Proof.
  unfold HandlerFactory.handlers.
  rewrite !lookup_insert_Some, lookup_empty. naive_solver.
Qed.

Lemma save_dockerfile_outcome (h : Handler) (folder : string) (w : World) :
  save_dockerfile h folder w
  = (Ok tt, record_all [ Write (Py.os_path_join folder "dockerfile")
                               (Raw (dockerfile_content h));
                         Print ("Generated Dockerfile at: "
                                +:+ Py.os_path_join folder "dockerfile") ] w).
Proof. done. Qed.

Lemma create_dockerfile_outcome (host : Host) (h : Handler) (folder : string) (w : World) :
  exists text,
    create_dockerfile host h folder w
    = (Ok (set_dockerfile_content text h),
       record_all [ Write (Py.os_path_join folder "dockerfile") (Raw text);
                    Print ("Generated Dockerfile at: "
                           +:+ Py.os_path_join folder "dockerfile") ] w) /\
    exists before after,
      text = before +:+ "FROM " +:+ registered_image (class h) +:+ ":" +:+ image_tag h
             +:+ Py.nl +:+ after /\
      (before = "" \/ before = Py.nl).
Proof.
  unfold create_dockerfile.
  destruct (class h); eexists; (split; [reflexivity|]).
  - eexists "", _. split; [reflexivity|by left].
  - eexists "", _. split; [reflexivity|by left].
  - eexists Py.nl, _. split; [reflexivity|by right].
Qed.

(** X16: rendering the Dockerfile of a handler of any class never
    raises; it stores the text in the handler, changes nothing else of
    it, and leaves exactly that text in the file [dockerfile] of the
    folder. *)
Theorem create_dockerfile_saves_its_text (host : Host) (h : Handler) (folder : string)
    (w : World) :
  exists h' w',
    create_dockerfile host h folder w = (Ok h', w') /\
    h' = set_dockerfile_content (dockerfile_content h') h /\
    fs w' !! Py.os_path_join folder "dockerfile" = Some (Raw (dockerfile_content h')) /\
    forall path, path <> Py.os_path_join folder "dockerfile" ->
                 fs w' !! path = fs w !! path.
Proof.
  destruct (create_dockerfile_outcome host h folder w) as (text & -> & _).
  eexists _, _. split; [reflexivity|]. split; [done|]. cbn. split.
  - apply lookup_insert_eq.
  - intros path Hne. by apply lookup_insert_ne.
Qed.

(** X17: the Dockerfile of a resolved handler is based on the image the
    container runs: its first instruction is [FROM] with the handler's
    image name and image tag. *)
Theorem dockerfile_from_original_image (host : Host) (c : Container) (h h' : Handler)
    (folder : string) (w w' : World) :
  HandlerFactory.get_handler c = Ok h ->
  create_dockerfile host h folder w = (Ok h', w') ->
  exists before after,
    dockerfile_content h'
    = before +:+ "FROM " +:+ image_name h +:+ ":" +:+ image_tag h +:+ Py.nl +:+ after /\
    (before = "" \/ before = Py.nl).
Proof.
  intros (h0 & _ & Hreg & _ & _ & Hi & _)%get_handler_inv Hrender.
  rewrite <- Hi in Hreg.
  destruct (create_dockerfile_outcome host h folder w)
    as (text & Heq & before & after & -> & Hbefore).
  rewrite Heq in Hrender. injection Hrender as <- _.
  exists before, after. by rewrite (registry_key _ _ Hreg).
Qed.

Lemma dockerfile_from_original_image_witness :
  exists h h' w',
    HandlerFactory.get_handler database = Ok h /\
    create_dockerfile (obliging_host []) h "out/db" empty_world = (Ok h', w') /\
    exists before after,
      dockerfile_content h'
      = before +:+ "FROM " +:+ image_name h +:+ ":" +:+ image_tag h +:+ Py.nl +:+ after /\
      (before = "" \/ before = Py.nl).
Proof.
  eexists _, _, _. split; [reflexivity|]. split; [reflexivity|].
  eapply (dockerfile_from_original_image (obliging_host []) database); reflexivity.
Defined.

(** ** The whole run *)

(** X18: a gateway whose backup output lacks the success marker, first
    among the handlers, ends the whole run with [TypeError]: only its
    backup command has run, and no file is written, neither for the
    handlers after it nor the compose descriptor, the shim or the
    umbrella Dockerfile. *)
Theorem failed_gateway_backup_ends_run (host : Host) (m : Manager) (h : Handler)
    (rest : list Handler) (w : World) :
  hanlders m = h :: rest ->
  class h = IgnitionHandler ->
  Py.contains "backup saved"
    (exec_output (container h) (history w) gateway_backup_command) = false ->
  exists w',
    run host m w = (Raise TypeError, w') /\
    fs w' = fs w /\
    history w' = (name (container h), gateway_backup_command) :: history w.
Proof.
  intros Hm Hcls Hno.
  destruct (Ignition_prepare_files_no_marker h w Hno) as (w' & Hprep & _ & Hfs).
  assert (prepare_files h w = (Ok None, w')) as Hnone.
  { unfold prepare_files. by rewrite Hcls. }
  exists w'. split; [|split; [done|]].
  - unfold run, mbind, M_bind. rewrite Hm. cbn [create_derived_images].
    unfold mbind, M_bind.
    by rewrite (extract_resources_of_None h _ w w' Hnone).
  - revert Hprep. unfold Ignition_prepare_files, mbind, M_bind, exec_run.
    cbv beta iota zeta. rewrite Hno. cbn. by intros [= <-].
Qed.

Lemma failed_gateway_backup_ends_run_witness :
  exists h rest w',
    hanlders gateway_manager = h :: rest /\
    class h = IgnitionHandler /\
    run (obliging_host []) gateway_manager empty_world = (Raise TypeError, w') /\
    fs w' = fs empty_world /\
    history w' = (name (container h), gateway_backup_command) :: history empty_world.
Proof.
  eexists _, _.
  destruct (failed_gateway_backup_ends_run (obliging_host []) gateway_manager _ _
              empty_world eq_refl eq_refl eq_refl) as (w' & H1 & H2 & H3).
  exists w'. split; [reflexivity|]. split; [reflexivity|]. by split.
Defined.

Lemma create_derived_images_frame (host : Host) (base_folder image_name : string)
    (handlers handlers' : list Handler) (w w' : World) :
  create_derived_images host base_folder image_name handlers w = (Ok handlers', w') ->
  Forall2 (fun h h' => exists text, h' = set_dockerfile_content text h) handlers handlers'.
Proof.
  revert handlers' w w'. induction handlers as [|h rest IH]; intros handlers' w w'.
  - cbn. intros [= <- _]. constructor.
  - cbn [create_derived_images]. unfold mbind, M_bind.
    destruct (extract_resources h _ w) as [[[]|e] w1]; [|done].
    destruct (create_dockerfile_outcome host h (create_container_folder base_folder h) w1)
      as (text & -> & _).
    destruct (build_image_fs host (create_container_folder base_folder h) image_name
                (container_name (set_dockerfile_content text h))
                (record_all [Write (Py.os_path_join (create_container_folder base_folder h)
                                      "dockerfile") (Raw text);
                             Print ("Generated Dockerfile at: " +:+
                                    Py.os_path_join (create_container_folder base_folder h)
                                      "dockerfile")] w1))
      as (w2 & Hbuild & _).
    unfold create_derived_image. rewrite Hbuild.
    destruct (create_derived_images host base_folder image_name rest w2)
      as [[rest'|e] w3] eqn:Hrest; [|done].
    cbn. intros [= <- _]. constructor; [by exists text|]. by eapply IH.
Qed.

Lemma compose_services_frame (image_name : string) (handlers handlers' : list Handler) :
  Forall2 (fun h h' => exists text, h' = set_dockerfile_content text h) handlers handlers' ->
  compose_services image_name handlers' = compose_services image_name handlers.
Proof.
  unfold compose_services. generalize ([] : list (string * list (string * pyval))).
  intros acc Hall. revert acc.
  induction Hall as [|h h' l l' [text ->] _ IH]; intros acc; [done|].
  cbn [foldl]. apply IH.
Qed.

Lemma os_path_join_relative_inj (a b1 b2 : string) :
  String.prefix "/" b1 = false -> String.prefix "/" b2 = false ->
  Py.os_path_join a b1 = Py.os_path_join a b2 -> b1 = b2.
Proof.
  unfold Py.os_path_join. intros -> ->.
  destruct (_ || _); intros H.
  - by apply (inj (String.app a)) in H.
  - apply (inj (String.app a)) in H. by apply (inj (String.app "/")) in H.
Qed.

(** X19: a run that ends without exception leaves the three artifacts
    in the base folder: [docker-compose.yml] with the descriptor of the
    manager's handlers, [entrypoint-shim.sh] with the shim and
    [dockerfile] with the umbrella Dockerfile, each for the manager's
    image name. *)
Theorem run_leaves_artifacts (host : Host) (m : Manager) (w w' : World) :
  run host m w = (Ok tt, w') ->
  fs w' !! Py.os_path_join (base_folder m) "docker-compose.yml"
    = Some (Yaml (docker_compose (image_name_of m) (hanlders m))) /\
  fs w' !! Py.os_path_join (base_folder m) "entrypoint-shim.sh"
    = Some (Raw (shim_content (image_name_of m))) /\
  fs w' !! Py.os_path_join (base_folder m) "dockerfile"
    = Some (Raw (build_dockerfile_content (image_name_of m))).
Proof.
  unfold run, mbind at 1, M_bind.
  destruct (create_derived_images host (base_folder m) (image_name_of m) (hanlders m) w)
    as [[handlers'|e] w1] eqn:Hderived; [|done].
  apply create_derived_images_frame in Hderived.
  unfold DockerUtils.create_compose_file, create_shim, create_build_image, mbind, M_bind.
  rewrite !write_file_record, !print_record. cbv beta iota.
  rewrite !write_file_record, !print_record. cbv beta iota.
  rewrite !write_file_record. cbv beta iota.
  match goal with
  | |- context [build_image host ?p ?i ?t ?w0] =>
      destruct (build_image_fs host p i t w0) as (w2 & -> & Hfs)
  end.
  intros [= <-]. rewrite Hfs. cbn [fs record].
  unfold docker_compose. rewrite (compose_services_frame _ _ _ Hderived).
  split; [|split].
  - rewrite !lookup_insert_ne
      by (intros E; by apply os_path_join_relative_inj in E).
    apply lookup_insert_eq.
  - rewrite lookup_insert_ne
      by (intros E; by apply os_path_join_relative_inj in E).
    apply lookup_insert_eq.
  - apply lookup_insert_eq.
Qed.

Lemma run_leaves_artifacts_witness :
  exists w',
    run (obliging_host [plc]) plc_manager empty_world = (Ok tt, w') /\
    fs w' !! Py.os_path_join (base_folder plc_manager) "docker-compose.yml"
      = Some (Yaml (docker_compose (image_name_of plc_manager) (hanlders plc_manager))) /\
    fs w' !! Py.os_path_join (base_folder plc_manager) "entrypoint-shim.sh"
      = Some (Raw (shim_content (image_name_of plc_manager))) /\
    fs w' !! Py.os_path_join (base_folder plc_manager) "dockerfile"
      = Some (Raw (build_dockerfile_content (image_name_of plc_manager))).
Proof.
  eexists. split; [vm_compute; reflexivity|].
  apply (run_leaves_artifacts (obliging_host [plc]) plc_manager empty_world).
  vm_compute. reflexivity.
Defined.

Lemma prefix_append (p s : string) : String.prefix p (p +:+ s) = true.
Proof.
  induction p as [|c p IH]; [apply prefix_nil|]. rewrite append_cons. cbn.
  by destruct (ascii_dec c c).
Qed.

Lemma contains_middle (needle before after : string) :
  Py.contains needle (before +:+ needle +:+ after) = true.
Proof.
  induction before as [|c before IH].
  - rewrite append_nil. destruct (needle +:+ after) eqn:E; cbn [Py.contains];
      rewrite <- E, prefix_append; done.
  - rewrite append_cons. cbn [Py.contains]. rewrite IH. apply orb_true_r.
Qed.

Lemma lines_split (l : list string) (i : nat) (x : string) :
  l !! i = Some x ->
  exists before after,
    lines l = before +:+ x +:+ after /\
    ((S i < length l)%nat -> exists after', after = Py.nl +:+ after').
Proof.
  unfold lines. revert i. induction l as [|y l IH]; intros i; [done|].
  destruct i as [|i]; cbn [lookup list_lookup].
  - intros [= ->]. destruct l as [|z l].
    + exists "", "". split; [by norm_str|]. cbn. lia.
    + exists "", (Py.nl +:+ Py.join Py.nl (z :: l)). split; [done|]. by eexists.
  - intros Hx. destruct (IH i Hx) as (before & after & Heq & Hnl).
    destruct l as [|z l]; [done|].
    exists (y +:+ Py.nl +:+ before), after. split.
    + cbn [Py.join] in *. rewrite Heq. by norm_str.
    + intros Hlen. apply Hnl. cbn in *. lia.
Qed.

Lemma contains_line (l : list string) (i : nat) (x : string) :
  l !! i = Some x -> Py.contains x (lines l) = true.
Proof.
  intros (before & after & -> & _)%lines_split. apply contains_middle.
Qed.

Lemma contains_line_nl (l : list string) (i : nat) (x : string) :
  l !! i = Some x -> (S i < length l)%nat ->
  Py.contains (x +:+ Py.nl) (lines l) = true.
Proof.
  intros (before & after & -> & Hnl)%lines_split Hlen.
  destruct (Hnl Hlen) as [after' ->].
  rewrite <- (append_assoc x Py.nl after'). apply contains_middle.
Qed.

(** X20: the shim and the umbrella Dockerfile agree with each other:
    the Dockerfile installs the compose descriptor at the path from
    which the shim brings the stack up, and it installs the shim at the
    path it names as entrypoint. *)
Theorem shim_and_dockerfile_agree (image_name : string) :
  let text := build_dockerfile_content image_name in
  Py.contains ("COPY /docker-compose.yml " +:+ installed_compose_path image_name +:+ Py.nl)
    text = true /\
  Py.contains ("docker compose -f  " +:+ installed_compose_path image_name +:+ " up -d"
               +:+ Py.nl) (shim_content image_name) = true /\
  Py.contains ("COPY /entrypoint-shim.sh /usr/local/bin/entrypoint-shim.sh" +:+ Py.nl)
    text = true /\
  Py.contains ("ENTRYPOINT [ " +:+ Py.dq +:+ "/usr/local/bin/entrypoint-shim.sh" +:+ Py.dq
               +:+ " ]") text = true.
Proof.
  cbv zeta. unfold build_dockerfile_content, shim_content, installed_compose_path.
  split; [|split; [|split]].
  - match goal with
    | |- Py.contains _ (lines ?l) = true =>
        exact (contains_line_nl l 4
                 ("COPY /docker-compose.yml /usr/local/bin/" +:+ image_name
                  +:+ "/docker-compose.yml") eq_refl ltac:(cbn; lia))
    end.
  - match goal with
    | |- Py.contains ?needle (lines ?l) = true =>
        replace needle
          with (("docker compose -f  /usr/local/bin/" +:+ image_name
                 +:+ "/docker-compose.yml up -d") +:+ Py.nl)
          by (unfold Py.nl, Py.str1; by norm_str);
        exact (contains_line_nl l 13 _ eq_refl ltac:(cbn; lia))
    end.
  - match goal with
    | |- Py.contains _ (lines ?l) = true =>
        exact (contains_line_nl l 12
                 "COPY /entrypoint-shim.sh /usr/local/bin/entrypoint-shim.sh"
                 eq_refl ltac:(cbn; lia))
    end.
  - match goal with
    | |- Py.contains ?x (lines ?l) = true => exact (contains_line l 15 x eq_refl)
    end.
Qed.

(** ** Paths that the engine refuses *)

Lemma extract_one_refused (handler : Handler) (destination file line : string)
    (w : World) :
  refusal_line handler (history w) file = Some line ->
  extract_one handler destination file w = (Ok tt, record (Print line) w).
Proof.
  unfold refusal_line, extract_one, try_docker, container_get_archive, mbind, M_bind.
  destruct (get_archive (container handler) (history w) file); [done|..];
    intros [= <-]; by rewrite print_record.
Qed.

Lemma record_all_prints_fs (lines : list string) (w : World) :
  fs (record_all (Print <$> lines) w) = fs w.
Proof.
  revert w. induction lines as [|line lines IH]; intros w; [done|].
  change (record_all (Print <$> line :: lines) w)
    with (record_all (Print <$> lines) (record (Print line) w)).
  by rewrite IH.
Qed.

(** X21: an engine error does not end the extraction.  For paths that
    the engine refuses, with [NotFound] or with an [APIError], the
    extraction writes nothing and prints one line each, in their order,
    and goes on with the paths that follow as if it had started
    there. *)
Theorem extraction_contains_engine_errors (handler : Handler)
    (refused : list string) (lines : list string) (rest : list string)
    (destination : string) (w : World) :
  Forall2 (fun file line => refusal_line handler (history w) file = Some line)
    refused lines ->
  extract_files_from_container handler (Some (refused ++ rest)) destination w
  = extract_files_from_container handler (Some rest) destination
      (record_all (Print <$> lines) w) /\
  fs (record_all (Print <$> lines) w) = fs w.
Proof.
  intros Hall. split; [|apply record_all_prints_fs].
  cbn [extract_files_from_container]. revert lines w Hall.
  induction refused as [|file refused IH]; intros lines w Hall.
  - by apply Forall2_nil_inv_l in Hall as ->.
  - apply Forall2_cons_inv_l in Hall as (line & lines' & Hfile & Hall & ->).
    cbn [app for_each]. unfold mbind at 1, M_bind at 1.
    rewrite (extract_one_refused _ _ _ _ _ Hfile).
    change (record_all (Print <$> line :: lines') w)
      with (record_all (Print <$> lines') (record (Print line) w)).
    apply (IH lines' (record (Print line) w)). exact Hall.
Qed.

Lemma extraction_contains_engine_errors_witness :
  Forall2 (fun file line => refusal_line backup_handler (history empty_world) file = Some line)
    ["/backups/gone_20230101_000000.bak"]
    ["File /backups/gone_20230101_000000.bak not found in container db"] /\
  extract_files_from_container backup_handler
    (Some (["/backups/gone_20230101_000000.bak"] ++ ["/backups/DB1_20230101_000000.bak"]))
    "stack/db" empty_world
  = extract_files_from_container backup_handler
      (Some ["/backups/DB1_20230101_000000.bak"]) "stack/db"
      (record_all
         (Print <$> ["File /backups/gone_20230101_000000.bak not found in container db"])
         empty_world) /\
  fs (record_all
        (Print <$> ["File /backups/gone_20230101_000000.bak not found in container db"])
        empty_world) = fs empty_world.
Proof.
  assert (Forall2 (fun file line =>
                     refusal_line backup_handler (history empty_world) file = Some line)
            ["/backups/gone_20230101_000000.bak"]
            ["File /backups/gone_20230101_000000.bak not found in container db"]) as Hall.
  { repeat constructor. }
  split; [exact Hall|].
  exact (extraction_contains_engine_errors backup_handler _ _
           ["/backups/DB1_20230101_000000.bak"] "stack/db" empty_world Hall).
Defined.

(** ** Asking for database names and backing them up *)

Lemma lstrip_head (s : string) :
  match Py.lstrip s with
  | EmptyString => True
  | String c _ => Py.is_space c = false
  end.
Proof.
  induction s as [|c s IH]; [done|]. cbn -[Py.is_space].
  by destruct (Py.is_space c) eqn:E; [|rewrite E].
Qed.

Lemma rstrip_idempotent (s : string) : Py.rstrip (Py.rstrip s) = Py.rstrip s.
Proof.
  induction s as [|c s IH]; [done|]. cbn -[Py.is_space].
  destruct (Py.rstrip s) as [|c' r] eqn:E.
  - destruct (Py.is_space c) eqn:Hc; [done|]. cbn -[Py.is_space]. by rewrite Hc.
  - cbn -[Py.is_space]. cbn -[Py.is_space] in IH. by rewrite IH.
Qed.

Lemma rstrip_head (s : string) :
  match s with
  | EmptyString => True
  | String c _ => Py.is_space c = false
  end ->
  match Py.rstrip s with
  | EmptyString => True
  | String c _ => Py.is_space c = false
  end.
Proof.
  destruct s as [|c s]; [done|]. cbn -[Py.is_space]. intros Hc.
  destruct (Py.rstrip s); [by rewrite Hc|done].
Qed.

Lemma strip_idempotent (s : string) : Py.strip (Py.strip s) = Py.strip s.
Proof.
  unfold Py.strip.
  assert (Py.lstrip (Py.rstrip (Py.lstrip s)) = Py.rstrip (Py.lstrip s)) as ->.
  { pose proof (rstrip_head _ (lstrip_head s)) as H.
    destruct (Py.rstrip (Py.lstrip s)) as [|c r]; [done|].
    cbn -[Py.is_space]. by rewrite H. }
  apply rstrip_idempotent.
Qed.

(** X22: for a line read from the terminal, [get_db_names] returns at
    least one name, also for an empty line, each stripped of
    surrounding whitespace; it consumes that line and shows the prompt
    once. *)
Theorem get_db_names_of_line (h : Handler) (w : World) (line : string)
    (more : list string) :
  stdin w = line :: more ->
  exists first others w',
    get_db_names h w = (Ok (first :: others), w') /\
    first :: others = Py.strip <$> Py.split "," line /\
    Forall (fun db_name => Py.strip db_name = db_name) (first :: others) /\
    stdin w' = more /\
    events w' = events w ++
      [Prompt ("Please enter a comma-separated list of database names for container "
               +:+ container_name h +:+ ": ")] /\
    fs w' = fs w /\ history w' = history w.
Proof.
  intros Hin. unfold get_db_names, input, mbind, M_bind, mret, M_ret.
  rewrite Hin.
  destruct (Py.split "," line) as [|x l] eqn:E; [by apply split_not_empty in E|].
  exists (Py.strip x), (Py.strip <$> l). eexists. split; [reflexivity|].
  split; [done|]. split; [|done].
  change (Forall (fun db_name => Py.strip db_name = db_name) (Py.strip <$> (x :: l))).
  apply Forall_fmap, Forall_forall. intros y _. apply strip_idempotent.
Qed.

Lemma get_db_names_of_line_witness :
  stdin terminal_world = " sales , hr " :: ["next"] /\
  exists first others w',
    get_db_names backup_handler terminal_world = (Ok (first :: others), w') /\
    first :: others = Py.strip <$> Py.split "," " sales , hr " /\
    Forall (fun db_name => Py.strip db_name = db_name) (first :: others) /\
    stdin w' = ["next"] /\
    events w' = events terminal_world ++
      [Prompt ("Please enter a comma-separated list of database names for container "
               +:+ container_name backup_handler +:+ ": ")] /\
    fs w' = fs terminal_world /\ history w' = history terminal_world.
Proof.
  split; [reflexivity|].
  exact (get_db_names_of_line backup_handler terminal_world " sales , hr " ["next"]
           eq_refl).
Defined.

Example get_db_names_samples :
  let ask line := (get_db_names backup_handler
                     {| fs := ∅; events := []; stdin := line; history := [] |}).1 in
  ask [" sales , hr "] = Ok ["sales"; "hr"] /\
  ask [""] = Ok [""] /\
  ask [] = Raise EOFError.
Proof. repeat split. Qed.



Example backup_databases_unknown_database :
  resolved sales_server = Some sales_handler /\
  (backup_databases sales_handler ["sales"; "hr"; "stock"] empty_world).1 = Ok false /\
  history (backup_databases sales_handler ["sales"; "hr"; "stock"] empty_world).2
  = [("proj-db-1", backup_command "hr"); ("proj-db-1", backup_command "sales")].
Proof. repeat split. Qed.

(** ** A container without CPU quota *)

(** X24: a protocol gateway whose container reports no CPU quota still
    gets a resource-limit block: its limit is the quotient of zero,
    which prints as [0.0]. *)
Theorem modbus_without_quota (c : Container) (h0 : Handler) :
  ContainerHandler_init ModbusHandler c = Ok h0 ->
  NanoCpus c = None ->
  ModbusHandler_init c = Ok (set_deploy (cpu_limit_block 0%float) h0) /\
  float_str 0%float = Some "0.0".
Proof.
  intros Hinit Hnone. split; [|reflexivity].
  unfold ModbusHandler_init. rewrite Hinit. cbn.
  apply ContainerHandler_init_inv in Hinit
    as (short & tag0 & more & image & tag & fields & _ & _ & _ & ->).
  cbn [container]. rewrite (get_deploy_no_quota c) by (by left). done.
Qed.

Lemma modbus_without_quota_witness :
  exists h0,
    ContainerHandler_init ModbusHandler two_port_publisher = Ok h0 /\
    NanoCpus two_port_publisher = None /\
    ModbusHandler_init two_port_publisher
      = Ok (set_deploy (cpu_limit_block 0%float) h0) /\
    float_str 0%float = Some "0.0".
Proof.
  eexists. split; [reflexivity|]. split; [reflexivity|].
  apply (modbus_without_quota two_port_publisher); reflexivity.
Defined.

(** ** The services of any list of handlers *)

Lemma last_of_name (handlers : list Handler) (k : string) :
  k ∈ container_name <$> handlers ->
  exists before h rest,
    handlers = before ++ h :: rest /\ container_name h = k /\
    (k ∉ container_name <$> rest).
Proof.
  induction handlers as [|h handlers IH] using rev_ind.
  - by intros ?%not_elem_of_nil.
  - destruct (decide (container_name h = k)) as [Hk|Hk].
    + intros _. exists handlers, h, []. split; [done|]. split; [done|].
      apply not_elem_of_nil.
    + rewrite fmap_app, elem_of_app. cbn. rewrite list_elem_of_singleton.
      intros [Hin|?]; [|done].
      destruct (IH Hin) as (before & h' & rest & -> & Hh' & Hrest).
      exists before, h', (rest ++ [h]). split; [by rewrite <- app_assoc|].
      split; [done|]. rewrite fmap_app, not_elem_of_app. cbn.
      rewrite list_elem_of_singleton. split; [done|congruence].
Qed.

(** X25: whatever the handlers, the services have one key for each
    distinct short name and no other key, and the entry under a key is
    the one of the last handler of that name. *)
Theorem compose_services_entries (image_name : string) (handlers : list Handler)
    (k : string) (entry : list (string * pyval)) :
  NoDup (dict_keys (compose_services image_name handlers)) /\
  (dict_get k (compose_services image_name handlers) = Some entry <->
   exists before h rest,
     handlers = before ++ h :: rest /\ container_name h = k /\
     (k ∉ container_name <$> rest) /\ entry = service_entry image_name h).
Proof.
  destruct (compose_services_keys image_name handlers) as [Hnd Hkeys].
  split; [done|]. split.
  - intros Hget.
    destruct (last_of_name handlers k) as (before & h & rest & -> & Hk & Hrest).
    { apply Hkeys. by eapply dict_get_Some_keys. }
    exists before, h, rest. repeat split; try done.
    rewrite <- Hk in Hget, Hrest.
    rewrite (compose_services_last image_name before rest h Hrest) in Hget.
    by injection Hget as <-.
  - intros (before & h & rest & -> & <- & Hrest & ->).
    by apply compose_services_last.
Qed.

(** ** The folder of a handler *)

Lemma lower_char_idempotent (c : ascii) : Py.lower_char (Py.lower_char c) = Py.lower_char c.
Proof. destruct c as [[] [] [] [] [] [] [] []]; reflexivity. Qed.

Lemma lower_idempotent (s : string) : Py.lower (Py.lower s) = Py.lower s.
Proof.
  induction s as [|c s IH]; [done|]. cbn [Py.lower].
  by rewrite lower_char_idempotent, IH.
Qed.

(** X26: the build subfolder of a resolved handler is the base folder
    joined with its short name as it is, and two resolved handlers
    whose short names differ, neither beginning with a slash, get
    different subfolders. *)
Theorem container_folders (base_folder : string) (c1 c2 : Container) (h1 h2 : Handler) :
  HandlerFactory.get_handler c1 = Ok h1 ->
  HandlerFactory.get_handler c2 = Ok h2 ->
  String.prefix "/" (container_name h1) = false ->
  String.prefix "/" (container_name h2) = false ->
  container_name h1 <> container_name h2 ->
  create_container_folder base_folder h1
    = Py.os_path_join base_folder (container_name h1) /\
  create_container_folder base_folder h1 <> create_container_folder base_folder h2.
Proof.
  intros H1 H2 Hs1 Hs2 Hne.
  assert (forall c h, HandlerFactory.get_handler c = Ok h ->
            Py.lower (container_name h) = container_name h) as Hlow.
  { intros c h (a & b & d & _ & _ & _ & _ & ->)%resolved_short_name_aux.
    apply lower_idempotent. }
  unfold create_container_folder. rewrite (Hlow c1 h1 H1), (Hlow c2 h2 H2).
  split; [done|]. intros E. by apply os_path_join_relative_inj in E.
Qed.

Lemma container_folders_witness :
  exists h1 h2,
    HandlerFactory.get_handler failing_gateway = Ok h1 /\
    HandlerFactory.get_handler database = Ok h2 /\
    create_container_folder "out" h1 = Py.os_path_join "out" (container_name h1) /\
    create_container_folder "out" h1 <> create_container_folder "out" h2.
Proof.
  eexists _, _. split; [reflexivity|]. split; [reflexivity|].
  apply (container_folders "out" failing_gateway database);
    reflexivity || discriminate.
Defined.

(** ** A project without containers *)

(** X27: when the engine lists no container for the project, the
    manager cannot be built: [NoContainersFound] is raised with the
    project name in its message, before anything is printed, run or
    written; the script ends in the same way. *)
Theorem no_containers_is_fatal (host : Host) (project image destination : string)
    (w : World) :
  containers_list host (project_label project) = [] ->
  BuildManager_init host project image destination w
  = (Raise (NoContainersFound ("No running containers found for project '"
                               +:+ project +:+ "'.")), w) /\
  (project = "modbus" ->
   main host destination w
   = (Raise (NoContainersFound "No running containers found for project 'modbus'."), w)).
Proof.
  intros Hnone.
  assert (BuildManager_init host project image destination w
          = (Raise (NoContainersFound ("No running containers found for project '"
                                       +:+ project +:+ "'.")), w)) as Hinit.
  { unfold BuildManager_init, mbind, M_bind.
    by rewrite get_handlers_outcome_aux, Hnone. }
  split; [done|]. intros ->. unfold main, mbind, M_bind.
  unfold BuildManager_init, mbind, M_bind. by rewrite get_handlers_outcome_aux, Hnone.
Qed.

Lemma no_containers_is_fatal_witness :
  containers_list (obliging_host []) (project_label "modbus") = [] /\
  main (obliging_host []) "/work" empty_world
  = (Raise (NoContainersFound "No running containers found for project 'modbus'."),
     empty_world).
Proof.
  split; [reflexivity|].
  by apply (no_containers_is_fatal (obliging_host []) "modbus" "modbus" "/work"
              empty_world eq_refl).
Defined.
